(** * tables.py: schema-driven HTML tables and the column converter registry

    A shallow embedding of [src/tables.py].  Python objects are modelled
    by the attributes the code reads, exceptions by an error monad, the
    module's global namespace by the list of names the module binds, and
    HTML by the very strings the code concatenates. *)

From Stdlib Require Import String Ascii List ZArith Lia Bool Permutation.
From stdpp Require Import base option list gmap strings sorting pretty.

Local Open Scope string_scope.
Local Open Scope Z_scope.
Local Open Scope list_scope.

(** ** Exceptions and the error monad *)

Module Py.

Inductive exn : Type :=
| NameError (name : string)
| AttributeError (attr : string)
| KeyError (key : string)
| IndexError
| TypeError (msg : string)
| ModelTableConversionError (msg : string)
| ArgumentError (msg : string)
| HTTPException (code : Z)
| IntegrityError (constraint : string).

Inductive result (A : Type) : Type :=
| Ok (a : A)
| Raise (e : exn).

Arguments Ok {A} a.
Arguments Raise {A} e.

Definition bind {A B} (m : result A) (k : A -> result B) : result B :=
  match m with
  | Ok a => k a
  | Raise e => Raise e
  end.

Definition is_ok {A} (m : result A) : bool :=
  match m with Ok _ => true | Raise _ => false end.

(** Attribute values of stored instances: column values, a related
    object (known by what [str] prints for it), or a collection. *)
Inductive scalar : Type :=
| VNone
| VBool (b : bool)
| VInt (z : Z)
| VStr (s : string)
| VObj (repr : string).

Inductive pyval : Type :=
| Scalar (v : scalar)
| Seq (l : list scalar).

End Py.

Export Py.

#[export] Instance result_bind : MBind result := fun A B k m => bind m k.
#[export] Instance result_ret : MRet result := @Ok.

(** ** Strings as Python slices them *)

(** [s[n:]] *)
Fixpoint string_drop (n : nat) (s : string) : string :=
  match n, s with
  | O, _ => s
  | S n', String _ s' => string_drop n' s'
  | S _, EmptyString => EmptyString
  end.

(** [s.startswith(p)] *)
Fixpoint startswith (p s : string) : bool :=
  match p, s with
  | EmptyString, _ => true
  | String a p', String b s' => if Ascii.eqb a b then startswith p' s' else false
  | String _ _, EmptyString => false
  end.

(** [''.join(l)] *)
Fixpoint join (l : list string) : string :=
  match l with
  | [] => ""
  | s :: l' => s +:+ join l'
  end.

(** ** The module's global namespace

    Names bound at module level by the import statements and the
    top-level definitions, in source order. *)
Definition module_globals : list string :=
  [ "os"; "flask"; "markupsafe"; "sa"; "sqlalchemy"; "wtforms";
    "Base"; "Item"; "Account"; "Order"; "OrderItem"; "Table";
    "ModelTableConversionError"; "ModelTableConverterBase"; "converts";
    "ModelTableConverter"; "MetadataView"; "mapped_class_from_tablename";
    "model_columns"; "model_table"; "key_from_property"; "th_from_property";
    "ul"; "td"; "html_table"; "item_table"; "database"; "engine";
    "add_commands"; "add_pluggables"; "create_app" ].

(** Reading a global name: bound or [NameError]. *)
Definition load_global (g : list string) (name : string) : result unit :=
  if bool_decide (name ∈ g) then Ok tt else Raise (NameError name).

(** ** Schema metadata as the code inspects it *)

Record pyclass : Type := PyClass {
  cls_module : string;
  cls_name : string
}.

(** The class of a column type together with the rest of its method
    resolution order; [inspect.getmro] returns the class first. *)
Record sqltype : Type := SqlType {
  ty_class : pyclass;
  ty_bases : list pyclass
}.

Definition getmro (t : sqltype) : list pyclass := ty_class t :: ty_bases t.

Record Column : Type := MkColumn {
  col_name : string;
  col_type : sqltype;
  col_info : gmap string (gmap string string)
}.

Inductive direction : Type := ONETOMANY | MANYTOONE | MANYTOMANY.

Definition direction_name (d : direction) : string :=
  match d with
  | ONETOMANY => "ONETOMANY"
  | MANYTOONE => "MANYTOONE"
  | MANYTOMANY => "MANYTOMANY"
  end.

(** A mapper property.  [prop_columns] and [prop_direction] are [None]
    when the object has no such attribute ([hasattr] is false);
    [prop_foreign] is [prop.mapper.class_.__name__]. *)
Record Property : Type := MkProperty {
  prop_key : string;
  prop_columns : option (list Column);
  prop_direction : option direction;
  prop_foreign : option string
}.

(** ** Handlers and converter objects *)

Record call_args : Type := CallArgs {
  ca_model : string;
  ca_prop : Property;
  ca_column : option Column;
  ca_field_args : option (gmap string pyval)
}.

(** A handler method: its name, its [_converter_for] attribute when it
    has one, and what calling it returns. *)
Record handler : Type := Handler {
  h_name : string;
  h_converter_for : option (list string);
  h_body : call_args -> result pyval
}.

(** [converts]: whatever type names it is given, [_inner] hands the
    decorated function back as it received it. *)
Definition converts (args : list string) (func : handler) : handler :=
  let _inner (func : handler) := func in
  _inner func.

Inductive attr : Type :=
| ABool (b : bool)
| ADict (d : gmap string handler)
| AMethod (h : handler)
| AOther.

(** An instance: its own [__dict__] and the namespace of its class
    (inherited entries included, sorted by name as [dir] lists them). *)
Record instance : Type := Instance {
  i_dict : gmap string attr;
  i_class : list (string * attr)
}.

Fixpoint assoc {A} (k : string) (l : list (string * A)) : option A :=
  match l with
  | [] => None
  | (k', v) :: l' => if String.eqb k k' then Some v else assoc k l'
  end.

Definition getattr (self : instance) (name : string) : result attr :=
  match i_dict self !! name with
  | Some a => Ok a
  | None =>
      match assoc name (i_class self) with
      | Some a => Ok a
      | None => Raise (AttributeError name)
      end
  end.

Definition setattr (self : instance) (name : string) (a : attr) : instance :=
  {| i_dict := <[name := a]> (i_dict self); i_class := i_class self |}.

(** [dir(self)]: instance and class names, sorted, without repetition. *)
Definition str_le (a b : string) : Prop := String.leb a b = true.

#[local] Instance str_le_dec a b : Decision (str_le a b).
Proof. unfold str_le. apply _. Defined.

Definition insert_sorted (x : string) (l : list string) : list string :=
  if bool_decide (x ∈ l) then l else list_merge str_le [x] l.

Definition dir (self : instance) : list string :=
  foldr insert_sorted (map fst (i_class self))
        (map fst (map_to_list (i_dict self))).

(** The inner loop of [__init__]: [converters[classname] = obj]. *)
Definition register (obj : handler) (classnames : list string)
           (converters : gmap string handler) : gmap string handler :=
  fold_left (fun cs classname => <[classname := obj]> cs) classnames converters.

(** The outer loop of [__init__] over [dir(self)]: only a method object
    can have [_converter_for]. *)
Definition scan (self : instance) (names : list string)
           (converters : gmap string handler) : gmap string handler :=
  fold_left
    (fun cs name =>
       match getattr self name with
       | Ok (AMethod h) =>
           match h_converter_for h with
           | Some classnames => register h classnames cs
           | None => cs
           end
       | _ => cs
       end)
    names converters.

(** [ModelTableConverterBase.__init__].  The result pairs the instance
    with the final value of the local variable [converters]. *)
Definition init (cls : list (string * attr))
           (converters : option (gmap string handler)) (use_mro : bool)
  : instance * gmap string handler :=
  let self := {| i_dict := ∅; i_class := cls |} in
  let self := setattr self "use_mro" (ABool use_mro) in
  let converters :=
    match converters with
    | None => ∅
    | Some d => if bool_decide (d = ∅) then ∅ else d
    end in
  (self, scan self (dir self) converters).

(** *** Lookup *)

(** ['<module>.<name>'] with a leading ['sqlalchemy.'] removed. *)
Definition type_string (col_type : pyclass) : string :=
  let type_string := cls_module col_type +:+ "." +:+ cls_name col_type in
  if startswith "sqlalchemy." type_string
  then string_drop 11 type_string
  else type_string.

Definition truthy (a : attr) : bool :=
  match a with
  | ABool b => b
  | ADict d => negb (bool_decide (d = ∅))
  | AMethod _ | AOther => true
  end.

(** Evaluating [self.converters] where a mapping is expected. *)
Definition self_converters (self : instance) : result (gmap string handler) :=
  a ← getattr self "converters";
  match a with
  | ADict d => Ok d
  | _ => Raise (TypeError "converters is not a mapping")
  end.

(** One of the two [for col_type in types] loops; [key] is the string
    tried for each type.  [self.converters] is read at every turn. *)
Fixpoint search (self : instance) (key : pyclass -> string)
         (types : list pyclass) : result (option handler) :=
  match types with
  | [] => Ok None
  | col_type :: rest =>
      d ← self_converters self;
      match d !! key col_type with
      | Some h => Ok (Some h)
      | None => search self key rest
      end
  end.

(** [format(cls, spec)] on a class object: [type.__format__] is
    [object.__format__], which accepts the empty specification only. *)
Definition format_class (c : pyclass) (spec : string) : result string :=
  if String.eqb spec ""
  then Ok ("<class '" +:+ cls_module c +:+ "." +:+ cls_name c +:+ "'>")
  else Raise (TypeError "unsupported format string passed to type.__format__").

Definition first_item {A} (l : list A) : result A :=
  match l with
  | x :: _ => Ok x
  | [] => Raise IndexError
  end.

(** [ModelTableConverterBase.get_converter], run in global namespace [g]. *)
Definition get_converter (g : list string) (self : instance) (column : Column)
  : result handler :=
  use_mro ← getattr self "use_mro";
  types ← (if truthy use_mro
            then _ ← load_global g "inspect"; Ok (getmro (col_type column))
            else Ok [ty_class (col_type column)]);
  by_module ← search self type_string types;
  match by_module with
  | Some h => Ok h
  | None =>
      by_name ← search self cls_name types;
      match by_name with
      | Some h => Ok h
      | None =>
          t0 ← first_item types;
          text ← format_class t0 "r";
          Raise (ModelTableConversionError
                   ("No converter found for " +:+ col_name column
                      +:+ " (" +:+ text +:+ ")"))
      end
  end.

(** *** Conversion *)

(** A handler invocation: which handler, with which keyword arguments. *)
Definition invocation : Type := string * call_args.

Definition call (h : handler) (args : call_args)
  : list invocation * result pyval :=
  ([(h_name h, args)], h_body h args).

Definition has {A} (o : option A) : bool :=
  match o with Some _ => true | None => false end.

(** [ModelTableConverterBase.convert]: the handler invocations made, and
    the outcome.  [mapper] is [sa.inspect(model)] and is carried by
    [model]. *)
Definition convert {S : Type} (self : instance) (model : string)
           (prop : Property) (field_args : option (gmap string pyval))
           (db_session : option S) : list invocation * result pyval :=
  if negb (has (prop_columns prop)) && negb (has (prop_direction prop))
  then ([], Ok (Scalar VNone))
  else if negb (has (prop_direction prop))
          && negb (length (default [] (prop_columns prop)) =? 1)%nat
  then ([], Raise (TypeError "Multiple-column properties not supported."))
  else
    let kwargs : gmap string pyval :=
      match field_args with
      | Some fa => if bool_decide (fa = ∅) then ∅ else fa ∪ ∅
      | None => ∅
      end in
    let column : option Column := None in
    match prop_direction prop with
    | Some d =>
        match db_session with
        | None =>
            ([], Raise (ModelTableConversionError
                          ("Cannot convert field " +:+ prop_key prop
                             +:+ ", need database session.")))
        | Some _ =>
            match prop_foreign prop with
            | None => ([], Raise (AttributeError "mapper"))
            | Some foreign_model =>
                match self_converters self with
                | Raise e => ([], Raise e)
                | Ok d' =>
                    match d' !! direction_name d with
                    | None => ([], Raise (KeyError (direction_name d)))
                    | Some converter =>
                        call converter
                             {| ca_model := model; ca_prop := prop;
                                ca_column := column;
                                ca_field_args := field_args |}
                    end
                end
            end
        end
    | None => ([], Raise (TypeError "'NoneType' object is not callable"))
    end.

(** *** The concrete converter class *)

Definition conv_String : handler :=
  converts ["String"]
    {| h_name := "conv_String";
       h_converter_for := None;
       h_body := fun _ => Ok (Scalar VNone) |}.

(** What [dir] finds on the class: the methods of the two classes in the
    source and attributes inherited from [object], none of which the
    source marks. *)
Definition ModelTableConverter_class : list (string * attr) :=
  [ ("__class__", AOther); ("__dict__", AOther); ("__doc__", AOther);
    ("__init__", AOther); ("__module__", AOther);
    ("conv_String", AMethod conv_String);
    ("convert", AOther); ("get_converter", AOther) ].

(** [ModelTableConverter(extra_converters, use_mro)]: the constructor
    passes both on to the base class and yields the instance. *)
Definition ModelTableConverter (extra_converters : option (gmap string handler))
           (use_mro : bool) : instance :=
  fst (init ModelTableConverter_class extra_converters use_mro).

(** The local [converters] of that same construction when it ends. *)
Definition ModelTableConverter_scanned
           (extra_converters : option (gmap string handler))
           (use_mro : bool) : gmap string handler :=
  snd (init ModelTableConverter_class extra_converters use_mro).

(** ** The schema of the source *)

Definition object_ : pyclass := PyClass "builtins" "object".
Definition TypeEngine : pyclass := PyClass "sqlalchemy.sql.type_api" "TypeEngine".

(** [sa.Integer], [sa.String] and [sa.Text] with the part of their
    ancestry the examples use. *)
Definition sa_Integer : sqltype :=
  SqlType (PyClass "sqlalchemy.sql.sqltypes" "Integer") [TypeEngine; object_].
Definition sa_String : sqltype :=
  SqlType (PyClass "sqlalchemy.sql.sqltypes" "String") [TypeEngine; object_].
Definition sa_Text : sqltype :=
  SqlType (PyClass "sqlalchemy.sql.sqltypes" "Text")
          (ty_class sa_String :: ty_bases sa_String).

Definition th_info (text : string) : gmap string (gmap string string) :=
  {[ "th" := {[ "text" := text ]} ]}.

Definition column_property (c : Column) : Property :=
  {| prop_key := col_name c; prop_columns := Some [c];
     prop_direction := None; prop_foreign := None |}.

Definition relationship (key : string) (d : direction) (target : string)
  : Property :=
  {| prop_key := key; prop_columns := None;
     prop_direction := Some d; prop_foreign := Some target |}.

(** A mapped class: its name, its table, and [mapper.attrs] in order. *)
Record model : Type := Model {
  m_name : string;
  m_tablename : string;
  m_attrs : list Property
}.

Definition Item_name : Column := MkColumn "name" sa_String (th_info "Name").
Definition Item_price : Column := MkColumn "price" sa_Integer (th_info "Price").

Definition Item : model :=
  Model "Item" "items"
    [ column_property (MkColumn "id" sa_Integer ∅);
      column_property Item_name;
      column_property Item_price ].

Definition Account_orders : Property := relationship "orders" ONETOMANY "Order".

Definition Account : model :=
  Model "Account" "accounts"
    [ column_property (MkColumn "id" sa_Integer ∅);
      column_property (MkColumn "name" sa_String (th_info "Name"));
      Account_orders ].

Definition Order : model :=
  Model "Order" "orders"
    [ column_property (MkColumn "id" sa_Integer ∅);
      column_property (MkColumn "account_id" sa_Integer ∅);
      relationship "account" MANYTOONE "Account";
      relationship "items" MANYTOMANY "Item" ].

Definition OrderItem : model :=
  Model "OrderItem" "orders_items"
    [ column_property (MkColumn "id" sa_Integer ∅);
      column_property (MkColumn "order_id" sa_Integer ∅);
      column_property (MkColumn "item_id" sa_Integer ∅) ].

(** [Base.registry.mappers] and [Base.metadata.tables], in the order
    the classes are declared. *)
Definition mappers : list model := [Item; Account; Order; OrderItem].
Definition metadata_tables : list string := map m_tablename mappers.

(** ** Rendering *)

Definition dquote : string := String (ascii_of_nat 34) EmptyString.

(** The replacements of [markupsafe.escape], character by character. *)
Definition escape_char (c : ascii) : string :=
  if Ascii.eqb c "&" then "&amp;"
  else if Ascii.eqb c "<" then "&lt;"
  else if Ascii.eqb c ">" then "&gt;"
  else if Ascii.eqb c "'" then "&#39;"
  else if Ascii.eqb c (ascii_of_nat 34) then "&#34;"
  else String c EmptyString.

Fixpoint escape_str (s : string) : string :=
  match s with
  | EmptyString => EmptyString
  | String c s' => escape_char c +:+ escape_str s'
  end.

(** [str(v)] *)
Definition str (v : scalar) : string :=
  match v with
  | VNone => "None"
  | VBool true => "True"
  | VBool false => "False"
  | VInt z => pretty z
  | VStr s => s
  | VObj repr => repr
  end.

(** What [markupsafe.escape] can be handed here: a plain value, or
    markup, which has [__html__] and passes through unchanged. *)
Inductive escapable : Type :=
| Plain (v : scalar)
| Markup (html : string).

Definition escape (x : escapable) : string :=
  match x with
  | Plain v => escape_str (str v)
  | Markup html => html
  end.

Definition th_from_property (prop : Property) : result string :=
  match prop_direction prop with
  | Some _ =>
      match prop_foreign prop with
      | Some foreign_model => Ok (escape (Plain (VStr foreign_model)))
      | None => Raise (AttributeError "mapper")
      end
  | None =>
      match prop_columns prop with
      | None => Raise (AttributeError "columns")
      | Some columns =>
          column ← first_item columns;
          match col_info column !! "th" with
          | Some th =>
              match th !! "text" with
              | Some text => Ok text
              | None => Ok (col_name column)
              end
          | None => Ok (col_name column)
          end
      end
  end.

Definition key_from_property (prop : Property) : result (option string) :=
  if negb (has (prop_columns prop)) && negb (has (prop_direction prop))
  then Ok None
  else if negb (has (prop_direction prop))
          && negb (length (default [] (prop_columns prop)) =? 1)%nat
  then Raise (TypeError "Multiple-column properties not supported.")
  else Ok (Some (prop_key prop)).

Definition ul (items : list scalar) : string :=
  let texts := map (fun item => escape (Plain item)) items in
  let lis := join (map (fun text => "<li>" +:+ text +:+ "</li>") texts) in
  "<ul>" +:+ lis +:+ "</ul>".

(** [td]: a list, set or tuple is rendered by [ul] and the markup goes
    through [td] once more, this time down the [else] branch. *)
Definition td_text (x : escapable) : string :=
  let text := escape x in
  "<td>" +:+ text +:+ "</td>".

Definition td (obj : pyval) : string :=
  match obj with
  | Seq items => td_text (Markup (ul items))
  | Scalar v => td_text (Plain v)
  end.

(** A loaded instance: attribute name to value. *)
Definition inst_getattr (inst : gmap string pyval) (key : string)
  : result pyval :=
  match inst !! key with
  | Some v => Ok v
  | None => Raise (AttributeError key)
  end.

(** [for x in l] with a body that may raise, results collected. *)
Fixpoint for_each {A B} (f : A -> result B) (l : list A) : result (list B) :=
  match l with
  | [] => Ok []
  | x :: l' => y ← f x; ys ← for_each f l'; Ok (y :: ys)
  end.

Definition header_row (texts : list string) : string :=
  let th_list := join (map (fun text => "<th>" +:+ text +:+ "</th>") texts) in
  "<tr>" +:+ th_list +:+ "</tr>".

(** One turn of the loop over [instances]. *)
Definition body_row {S : Type} (db_session : option S)
           (column_keys : list string) (inst : gmap string pyval)
  : result string :=
  _ ← match db_session with
      | Some _ => Ok tt
      | None => Raise (AttributeError "merge")
      end;
  values ← for_each (inst_getattr inst) column_keys;
  let tds := map td values in
  Ok ("<tr>" +:+ join tds +:+ "</tr>").

Definition html_table {S : Type} (model_ : model)
           (instances : list (gmap string pyval)) (db_session : option S)
  : result string :=
  let props := m_attrs model_ in
  let column_keys := map prop_key props in
  texts ← for_each th_from_property props;
  let header_row := header_row texts in
  body_rows ← for_each (body_row db_session column_keys) instances;
  let table_html := "<table><thead>" in
  let table_html := table_html +:+ (header_row +:+ "</thead>") in
  let table_html :=
    table_html +:+ ("<tbody>" +:+ join body_rows +:+ "</tbody></table>") in
  Ok table_html.

(** ** [model_columns] and [model_table] *)

(** A class object made by [type(name, bases, attributes)]. *)
Record pytype : Type := PyType {
  t_name : string;
  t_bases : list string;
  t_attributes : gmap string Property
}.

(** The loop body is [pass]: [field_dict] comes out as it went in. *)
Definition model_columns (model_ : model) : gmap string Property :=
  let properties := map (fun prop => (prop_key prop, prop)) (m_attrs model_) in
  let field_dict : gmap string Property := ∅ in
  fold_left (fun field_dict '(name, prop) => field_dict) properties field_dict.

Definition model_table (model_class : model) (type_name : option string)
           (bases : option (list string)) : pytype :=
  let type_name :=
    match type_name with
    | None => m_name model_class +:+ "Table"
    | Some n => n
    end in
  let bases := match bases with None => ["Table"] | Some b => b end in
  let attributes := model_columns model_class in
  PyType type_name bases attributes.

Definition item_table : pytype := model_table Item None None.

(** ** The database behind the engine *)

Record item_row : Type := ItemRow {
  item_id : Z; item_name : string; item_price : option Z
}.
Record account_row : Type := AccountRow {
  account_id : Z; account_name : string
}.
Record order_row : Type := OrderRow {
  order_id : Z; order_account_id : option Z
}.
Record order_item_row : Type := OrderItemRow {
  oi_id : Z; oi_order_id : option Z; oi_item_id : option Z
}.

Record database : Type := Database {
  items : list item_row;
  accounts : list account_row;
  orders : list order_row;
  orders_items : list order_item_row
}.

Definition fresh_database : database := Database [] [] [] [].

Definition is_fresh (db : database) : bool :=
  match items db, accounts db, orders db, orders_items db with
  | [], [], [], [] => true
  | _, _, _, _ => false
  end.

(** Rows of the table called [tablename]. *)
Definition row_count (db : database) (tablename : string) : nat :=
  if String.eqb tablename "items" then length (items db)
  else if String.eqb tablename "accounts" then length (accounts db)
  else if String.eqb tablename "orders" then length (orders db)
  else if String.eqb tablename "orders_items" then length (orders_items db)
  else 0%nat.

(** What [str] prints for a mapped object.  The address that
    [object.__repr__] shows is not fixed by the program; the primary
    key stands in its place. *)
Definition obj_repr (cls : string) (pk : Z) : string :=
  "<tables." +:+ cls +:+ " object at 0x" +:+ pretty pk +:+ ">".

Definition opt_int (o : option Z) : scalar :=
  match o with Some z => VInt z | None => VNone end.

Definition same_id (a : option Z) (b : Z) : bool :=
  match a with Some z => Z.eqb z b | None => false end.

Definition load_item (r : item_row) : gmap string pyval :=
  {[ "id" := Scalar (VInt (item_id r));
     "name" := Scalar (VStr (item_name r));
     "price" := Scalar (opt_int (item_price r)) ]}.

Definition load_account (db : database) (r : account_row)
  : gmap string pyval :=
  {[ "id" := Scalar (VInt (account_id r));
     "name" := Scalar (VStr (account_name r));
     "orders" :=
       Seq (map (fun o => VObj (obj_repr "Order" (order_id o)))
                (List.filter (fun o => same_id (order_account_id o) (account_id r))
                             (orders db))) ]}.

(** Items reached from an order through the [orders_items] rows. *)
Definition order_items (db : database) (oid : Z) : list item_row :=
  flat_map
    (fun oi =>
       if same_id (oi_order_id oi) oid
       then List.filter (fun it => same_id (oi_item_id oi) (item_id it)) (items db)
       else [])
    (orders_items db).

Definition load_order (db : database) (r : order_row) : gmap string pyval :=
  {[ "id" := Scalar (VInt (order_id r));
     "account_id" := Scalar (opt_int (order_account_id r));
     "account" :=
       Scalar match List.find (fun a => same_id (order_account_id r) (account_id a))
                              (accounts db) with
              | Some a => VObj (obj_repr "Account" (account_id a))
              | None => VNone
              end;
     "items" :=
       Seq (map (fun it => VObj (obj_repr "Item" (item_id it)))
                (order_items db (order_id r))) ]}.

Definition load_order_item (r : order_item_row) : gmap string pyval :=
  {[ "id" := Scalar (VInt (oi_id r));
     "order_id" := Scalar (opt_int (oi_order_id r));
     "item_id" := Scalar (opt_int (oi_item_id r)) ]}.

(** [session.scalars(sa.select(class_))] *)
Definition scalars (db : database) (class_ : model)
  : list (gmap string pyval) :=
  let t := m_tablename class_ in
  if String.eqb t "items" then map load_item (items db)
  else if String.eqb t "accounts" then map (load_account db) (accounts db)
  else if String.eqb t "orders" then map (load_order db) (orders db)
  else if String.eqb t "orders_items" then map load_order_item (orders_items db)
  else [].

(** ** The view *)

Fixpoint mapped_class_from_tablename (base : list model) (tablename : string)
  : option model :=
  match base with
  | [] => None
  | mapper :: rest =>
      if String.eqb (m_tablename mapper) tablename
      then Some mapper
      else mapped_class_from_tablename rest tablename
  end.

(** [flask.url_for] on the rule [/tables/<tablename>]. *)
Definition url_for (tablename : string) : string := "/tables/" +:+ tablename.

(** [flask.abort(code)] raises the HTTP exception for [code]. *)
Definition abort {A} (code : Z) : result A := Raise (HTTPException code).

Definition list_element (tablename : string) : result string :=
  match mapped_class_from_tablename mappers tablename with
  | None => Raise (AttributeError "__name__")
  | Some class_ =>
      let url := url_for tablename in
      let text := m_name class_ in
      Ok ("<li><a href=" +:+ dquote +:+ url +:+ dquote +:+ ">"
            +:+ text +:+ "</a></li>")
  end.

Definition dispatch_list : result string :=
  elements ← for_each list_element metadata_tables;
  let html := "<ul>" +:+ join elements +:+ "</ul>" in
  Ok html.

Definition dispatch_table (db : database) (tablename : string)
  : result string :=
  match mapped_class_from_tablename mappers tablename with
  | None => Raise (ArgumentError "Column expression or FROM clause expected")
  | Some class_ =>
      let session := db in
      let instances := scalars session class_ in
      let html := "<h1>" +:+ tablename +:+ "</h1>" in
      table ← html_table class_ instances (Some session);
      Ok (html +:+ table)
  end.

Definition dispatch_request (db : database) (tablename : option string)
  : result string :=
  match tablename with
  | None => dispatch_list
  | Some tablename =>
      if bool_decide (tablename ∈ metadata_tables)
      then dispatch_table db tablename
      else abort 404
  end.

(** What the framework makes of the view's outcome: a returned string
    is the body of a 200 response, an HTTP exception raised by the view
    becomes the response with its code, anything else stays an error. *)
Record response : Type := Response { status : Z; body : string }.

Definition full_dispatch_request (db : database) (tablename : option string)
  : result response :=
  match dispatch_request db tablename with
  | Ok html => Ok (Response 200 html)
  | Raise (HTTPException code) => Ok (Response code "")
  | Raise e => Raise e
  end.

(** ** The seed command *)

(** Objects built by the command, not yet stored.  An order refers to
    its account and items by object identity (position on the heap). *)
Inductive entity : Type :=
| NewAccount (name : string)
| NewItem (name : string) (price : option Z)
| NewOrder (account : option nat) (items_ : list nat).

Record session : Type := Session {
  heap : list entity;
  pending : list nat
}.

Definition construct (e : entity) (s : session) : nat * session :=
  (length (heap s), Session (heap s ++ [e]) (pending s)).

Definition add_one (oid : nat) (l : list nat) : list nat :=
  if bool_decide (oid ∈ l) then l else l ++ [oid].

(** [session.add]: the object, then what it refers to, once each. *)
Definition add (oid : nat) (s : session) : session :=
  let related :=
    match heap s !! oid with
    | Some (NewOrder account items_) =>
        match account with Some a => [a] | None => [] end ++ items_
    | _ => []
    end in
  Session (heap s) (fold_left (fun l o => add_one o l) (oid :: related) (pending s)).

Definition add_all (oids : list nat) (s : session) : session :=
  fold_left (fun s oid => add oid s) oids s.

(** The next integer primary key of a table. *)
Definition next_id (ids : list Z) : Z := 1 + fold_right Z.max 0 ids.

(** First pass of the flush: accounts and items, in the order they were
    added; [keys] remembers the primary key given to each object. *)
Definition insert_parent (h : list entity)
           (st : database * list (nat * Z)) (oid : nat)
  : result (database * list (nat * Z)) :=
  let '(db, keys) := st in
  match h !! oid with
  | Some (NewAccount name) =>
      if bool_decide (name ∈ map account_name (accounts db))
      then Raise (IntegrityError "accounts.name")
      else
        let pk := next_id (map account_id (accounts db)) in
        Ok (Database (items db) (accounts db ++ [AccountRow pk name])
                     (orders db) (orders_items db),
            (oid, pk) :: keys)
  | Some (NewItem name price) =>
      if bool_decide (name ∈ map item_name (items db))
      then Raise (IntegrityError "items.name")
      else
        let pk := next_id (map item_id (items db)) in
        Ok (Database (items db ++ [ItemRow pk name price]) (accounts db)
                     (orders db) (orders_items db),
            (oid, pk) :: keys)
  | _ => Ok st
  end.

Fixpoint key_of (keys : list (nat * Z)) (oid : nat) : option Z :=
  match keys with
  | [] => None
  | (o, pk) :: rest => if Nat.eqb o oid then Some pk else key_of rest oid
  end.

Definition link_item (keys : list (nat * Z)) (order_pk : Z)
           (rows : list order_item_row) (item : nat) : list order_item_row :=
  rows ++ [OrderItemRow (next_id (map oi_id rows)) (Some order_pk)
                        (key_of keys item)].

(** Second pass: orders, then their rows in [orders_items]. *)
Definition insert_order (h : list entity) (keys : list (nat * Z))
           (db : database) (oid : nat) : database :=
  match h !! oid with
  | Some (NewOrder account items_) =>
      let pk := next_id (map order_id (orders db)) in
      let account_pk := match account with
                        | Some a => key_of keys a
                        | None => None
                        end in
      Database (items db) (accounts db)
               (orders db ++ [OrderRow pk account_pk])
               (fold_left (link_item keys pk) items_ (orders_items db))
  | _ => db
  end.

Fixpoint fold_result {A B} (f : A -> B -> result A) (l : list B) (a : A)
  : result A :=
  match l with
  | [] => Ok a
  | x :: l' => a' ← f a x; fold_result f l' a'
  end.

(** [session.commit()]: all pending objects are written, or none. *)
Definition commit (s : session) (db : database) : result database :=
  '(db1, keys) ← fold_result (insert_parent (heap s)) (pending s) (db, []);
  Ok (fold_left (insert_order (heap s) keys) (pending s) db1).

Definition init_data (db : database) : result database :=
  let session := Session [] [] in
  let '(account1, session) := construct (NewAccount "account1") session in
  let '(account2, session) := construct (NewAccount "account2") session in
  let '(account3, session) := construct (NewAccount "account3") session in
  let '(account4, session) := construct (NewAccount "account4") session in
  let session := add_all [account1; account2; account3; account4] session in
  let '(pencil, session) := construct (NewItem "Pencil" (Some 10)) session in
  let '(notebook, session) := construct (NewItem "Notebook" (Some 50)) session in
  let '(eraser, session) := construct (NewItem "Eraser" (Some 15)) session in
  let '(straight_edge, session) :=
    construct (NewItem "Straight Edge" (Some 50)) session in
  let '(protractor, session) :=
    construct (NewItem "Protractor" (Some 50)) session in
  let '(desk, session) := construct (NewItem "Desk" (Some 10000)) session in
  let '(chair, session) := construct (NewItem "Chair" (Some 5000)) session in
  let session :=
    add_all [pencil; notebook; eraser; straight_edge; protractor; desk; chair]
            session in
  let '(order, session) :=
    construct (NewOrder (Some account1) [pencil; notebook]) session in
  let session := add order session in
  commit session db.


(** ** Vocabulary of the statements *)

(** The keys a lookup over [types] tries, in order: every type by
    module and name, then every type by name alone. *)
Definition lookup_order (types : list pyclass) : list string :=
  map type_string types ++ map cls_name types.

(** The first key of [keys] that [d] knows. *)
Fixpoint first_hit (d : gmap string handler) (keys : list string)
  : option handler :=
  match keys with
  | [] => None
  | k :: rest =>
      match d !! k with
      | Some h => Some h
      | None => first_hit d rest
      end
  end.

(** Is the outcome the converter-not-found error? *)
Definition is_not_found {A} (r : result A) : bool :=
  match r with
  | Raise (ModelTableConversionError _) => true
  | _ => false
  end.

(** A [Text] column, and a mapping that knows its ancestor [String]. *)
Definition Text_column : Column := MkColumn "body" sa_Text ∅.
Definition String_converters : gmap string handler :=
  {[ "String" := conv_String ]}.

(** How many times [needle] occurs in [s] (for a non-empty needle that
    cannot overlap itself this is [s.count(needle)]). *)
Fixpoint count_sub (needle s : string) : nat :=
  match s with
  | EmptyString => 0%nat
  | String _ s' =>
      ((if startswith needle s then 1 else 0) + count_sub needle s')%nat
  end.

(** No ['<'] anywhere. *)
Fixpoint no_lt (s : string) : bool :=
  match s with
  | EmptyString => true
  | String c s' => negb (Ascii.eqb c "<") && no_lt s'
  end.

(** First character ['<']; last character ['>']. *)
Definition head_lt (s : string) : bool :=
  match s with
  | EmptyString => false
  | String c _ => Ascii.eqb c "<"
  end.

Fixpoint ends_gt (s : string) : bool :=
  match s with
  | EmptyString => false
  | String c EmptyString => Ascii.eqb c ">"
  | String _ s' => ends_gt s'
  end.

(** ['>'] nowhere but possibly at the very end. *)
Fixpoint gt_only_last (s : string) : bool :=
  match s with
  | EmptyString => true
  | String c EmptyString => true
  | String c s' => negb (Ascii.eqb c ">") && gt_only_last s'
  end.

(** A needle shaped like an opening tag: ['<'] first and only there,
    ['>'] at most at the end. *)
Definition tag_like (needle : string) : bool :=
  match needle with
  | EmptyString => false
  | String c tag => Ascii.eqb c "<" && no_lt tag && gt_only_last needle
  end.

(** A piece of markup that begins with a tag and ends with one. *)
Definition wrapped (s : string) : bool := head_lt s && ends_gt s.

(** The two tags that are counted. *)
Definition counted (needle : string) : Prop :=
  needle = "<th>" \/ needle = "<tr>".

(** What [html_table] assembles from a header row and body rows. *)
Definition table_markup (header : string) (body_rows : list string) : string :=
  ("<table><thead>" +:+ (header +:+ "</thead>"))
    +:+ ("<tbody>" +:+ join body_rows +:+ "</tbody></table>").

(** The label a column declares in its [info], if any. *)
Definition declared_label (column : Column) : option string :=
  th ← col_info column !! "th"; th !! "text".

(** The header label in the words of the specification: the referenced
    entity for a relationship, else the declared label, else the name
    of the property. *)
Definition label_as_specified (prop : Property) : option string :=
  match prop_direction prop with
  | Some _ => prop_foreign prop
  | None =>
      match prop_columns prop with
      | Some (column :: _) =>
          Some (default (prop_key prop) (declared_label column))
      | _ => None
      end
  end.

(** A property whose column is named differently in the table, as in
    [user_id = sa.Column('id', sa.Integer)]. *)
Definition renamed_property : Property :=
  {| prop_key := "user_id";
     prop_columns := Some [MkColumn "id" sa_Integer ∅];
     prop_direction := None;
     prop_foreign := None |}.

(** The four entities, each with the table it is stored in. *)
Definition schema_entities : list (string * string) :=
  [ ("accounts", "Account"); ("items", "Item");
    ("orders", "Order"); ("orders_items", "OrderItem") ].

(** The list item linking to an entity's table. *)
Definition entity_link (entity : string * string) : string :=
  "<li><a href=" +:+ dquote +:+ "/tables/" +:+ fst entity +:+ dquote
    +:+ ">" +:+ snd entity +:+ "</a></li>".

(** A small database: two stored items and nothing else. *)
Definition two_items : database :=
  Database [ItemRow 1 "Pencil" (Some 10); ItemRow 2 "Notebook" (Some 50)]
           [] [] [].

(** ** Vocabulary of the further properties *)

(** [name] is a method of [self] marked for the type name [cn]. *)
Definition declares (self : instance) (name : string) (h : handler)
           (cn : string) : Prop :=
  getattr self name = Ok (AMethod h)
  /\ exists cns, h_converter_for h = Some cns /\ In cn cns.

(** A handler that does carry the marker, and an object of a class
    that has it as a method. *)
Definition marked_handler : handler :=
  {| h_name := "conv_String";
     h_converter_for := Some ["String"; "Text"];
     h_body := fun _ => Ok (Scalar VNone) |}.

Definition marked_instance : instance :=
  {| i_dict := ∅;
     i_class := [("conv_String", AMethod marked_handler); ("convert", AOther)] |}.

(** The keyword arguments [convert] passes to a handler. *)
Definition convert_args (model_ : string) (prop : Property)
           (field_args : option (gmap string pyval)) : call_args :=
  {| ca_model := model_; ca_prop := prop; ca_column := None;
     ca_field_args := field_args |}.

(** A mapper property that is neither a column nor a relationship, and
    one that spans two columns. *)
Definition unmapped_property : Property :=
  {| prop_key := "fullname"; prop_columns := None;
     prop_direction := None; prop_foreign := None |}.

Definition two_column_property : Property :=
  {| prop_key := "id";
     prop_columns := Some [MkColumn "id" sa_Integer ∅;
                           MkColumn "item_id" sa_Integer ∅];
     prop_direction := None; prop_foreign := None |}.

(** Does the character [c] occur in [s]? *)
Fixpoint occurs (c : ascii) (s : string) : bool :=
  match s with
  | EmptyString => false
  | String x s' => Ascii.eqb x c || occurs c s'
  end.

(** The five characters [markupsafe.escape] replaces, and strings free
    of them. *)
Definition is_special (c : ascii) : bool :=
  Ascii.eqb c "&" || Ascii.eqb c "<" || Ascii.eqb c ">"
  || Ascii.eqb c "'" || Ascii.eqb c (ascii_of_nat 34).

Fixpoint plain (s : string) : bool :=
  match s with
  | EmptyString => true
  | String c s' => negb (is_special c) && plain s'
  end.

(** A mapped class with a property that is neither column nor
    relationship, and an instance that lacks the attribute [price]. *)
Definition Person : model :=
  Model "Person" "people"
    [ column_property (MkColumn "id" sa_Integer ∅); unmapped_property ].


(** ** The view over any declarative base *)




(** ** The seed command, step by step *)

(** The names the seed command gives its accounts and items. *)
Definition seed_account_names : list string :=
  ["account1"; "account2"; "account3"; "account4"].

Definition seed_item_names : list string :=
  ["Pencil"; "Notebook"; "Eraser"; "Straight Edge"; "Protractor";
   "Desk"; "Chair"].

(** The session of [init_data] when it reaches [commit]. *)
Definition seed_session : session :=
  Session
    [ NewAccount "account1"; NewAccount "account2"; NewAccount "account3";
      NewAccount "account4";
      NewItem "Pencil" (Some 10); NewItem "Notebook" (Some 50);
      NewItem "Eraser" (Some 15); NewItem "Straight Edge" (Some 50);
      NewItem "Protractor" (Some 50); NewItem "Desk" (Some 10000);
      NewItem "Chair" (Some 5000);
      NewOrder (Some 0%nat) [4%nat; 5%nat] ]
    [0; 1; 2; 3; 4; 5; 6; 7; 8; 9; 10; 11]%nat.

(** A database that already holds an account of another name. *)
Definition one_account : database :=
  Database [] [AccountRow 7 "alice"] [] [].

(** * Properties *)

(** ** The converter registry *)

Section Registry.

Implicit Types (self : instance) (column : Column) (d : gmap string handler).

(** [converts] leaves no trace of the names it was given. *)
Lemma converts_id args func : converts args func = func.
Proof. reflexivity. Qed.

Lemma register_nil obj d : register obj [] d = d.
Proof. reflexivity. Qed.

(** A scan over attributes none of which carries the marker changes
    nothing. *)
Lemma scan_unmarked self names d :
  (forall name h, getattr self name = Ok (AMethod h) -> h_converter_for h = None) ->
  scan self names d = d.
Proof.
  intros Hno. unfold scan. revert d.
  induction names as [|name names IH]; intros d; simpl; [reflexivity|].
  destruct (getattr self name) as [[b|d'|h|]|e] eqn:E; try apply IH.
  rewrite (Hno _ _ E). apply IH.
Qed.

Lemma getattr_setattr_ne self name name' a :
  name <> name' -> getattr (setattr self name a) name' = getattr self name'.
Proof.
  intros Hne. unfold getattr, setattr; simpl.
  by rewrite lookup_insert_ne.
Qed.

Lemma getattr_setattr_eq self name a :
  getattr (setattr self name a) name = Ok a.
Proof. unfold getattr, setattr; simpl. by rewrite lookup_insert_eq. Qed.

(** Whatever mapping is handed to the constructor, the scan adds no
    entry to it, and the instance is left without a [converters]
    attribute. *)
Lemma ModelTableConverter_scanned_unchanged extra use_mro :
  ModelTableConverter_scanned extra use_mro = default ∅ extra.
Proof.
  unfold ModelTableConverter_scanned, init; simpl.
  rewrite scan_unmarked.
  - destruct extra as [d|]; [|reflexivity]. simpl.
    case_bool_decide; congruence.
  - intros name h. unfold getattr, setattr; simpl.
    destruct (decide (name = "use_mro")) as [->|Hne].
    + rewrite lookup_insert_eq. discriminate.
    + rewrite lookup_insert_ne by congruence. rewrite lookup_empty.
      simpl.
      repeat (destruct (String.eqb name _);
              [intros H; first [discriminate | by injection H as <-]|]).
      discriminate.
Qed.

Lemma ModelTableConverter_no_converters extra use_mro :
  getattr (ModelTableConverter extra use_mro) "converters"
  = Raise (AttributeError "converters").
Proof. reflexivity. Qed.

Lemma ModelTableConverter_use_mro extra use_mro :
  getattr (ModelTableConverter extra use_mro) "use_mro" = Ok (ABool use_mro).
Proof. reflexivity. Qed.

(** With [use_mro] set, the lookup stops at the name [inspect]. *)
Lemma get_converter_use_mro self column :
  getattr self "use_mro" = Ok (ABool true) ->
  get_converter module_globals self column = Raise (NameError "inspect").
Proof. intros H. unfold get_converter. rewrite H. reflexivity. Qed.

Lemma search_first_hit self key types d :
  getattr self "converters" = Ok (ADict d) ->
  search self key types = Ok (first_hit d (map key types)).
Proof.
  intros Hd. induction types as [|t types IH]; simpl; [reflexivity|].
  unfold self_converters. rewrite Hd. simpl.
  destruct (d !! key t); [reflexivity|apply IH].
Qed.

Lemma first_hit_app d ks1 ks2 :
  first_hit d (ks1 ++ ks2)
  = match first_hit d ks1 with
    | Some h => Some h
    | None => first_hit d ks2
    end.
Proof.
  induction ks1 as [|k ks1 IH]; simpl; [reflexivity|].
  destruct (d !! k); [reflexivity|apply IH].
Qed.

(** Where [inspect] is bound and the instance has been given a mapping,
    the two loops amount to one pass over [lookup_order]; when that
    pass finds nothing the error message cannot be formatted. *)
Lemma get_converter_order g self column d use_mro :
  "inspect" ∈ g ->
  getattr self "use_mro" = Ok (ABool use_mro) ->
  getattr self "converters" = Ok (ADict d) ->
  get_converter g self column
  = match first_hit d (lookup_order
                         (if use_mro then getmro (col_type column)
                          else [ty_class (col_type column)])) with
    | Some h => Ok h
    | None =>
        Raise (TypeError "unsupported format string passed to type.__format__")
    end.
Proof.
  intros Hg Hm Hd. unfold get_converter. rewrite Hm.
  unfold lookup_order. rewrite first_hit_app.
  assert (Hty : (if truthy (ABool use_mro)
                 then _ ← load_global g "inspect"; Ok (getmro (col_type column))
                 else Ok [ty_class (col_type column)])
                = Ok (if use_mro then getmro (col_type column)
                      else [ty_class (col_type column)])).
  { destruct use_mro; simpl; [|reflexivity].
    unfold load_global. by rewrite bool_decide_eq_true_2. }
  cbn -[search first_hit truthy load_global getmro]. rewrite Hty.
  cbn -[search first_hit getmro].
  rewrite !(search_first_hit _ _ _ d Hd).
  cbn -[first_hit getmro].
  destruct (first_hit d (map type_string _)); [reflexivity|].
  destruct (first_hit d (map cls_name _)); [reflexivity|].
  destruct use_mro; reflexivity.
Qed.

(** The not-found error does not arise from a bind whose parts are
    free of it. *)
Lemma is_not_found_bind {A B} (m : result A) (k : A -> result B) :
  is_not_found m = false ->
  (forall a, is_not_found (k a) = false) ->
  is_not_found (m ≫= k) = false.
Proof. intros Hm Hk. destruct m as [a|e]; [apply Hk|exact Hm]. Qed.

Lemma getattr_not_found self name : is_not_found (getattr self name) = false.
Proof.
  unfold getattr. destruct (i_dict self !! name); [reflexivity|].
  destruct (assoc name (i_class self)); reflexivity.
Qed.

Lemma self_converters_not_found self :
  is_not_found (self_converters self) = false.
Proof.
  unfold self_converters. apply is_not_found_bind; [apply getattr_not_found|].
  intros [ | | | ]; reflexivity.
Qed.

Lemma search_not_found self key types :
  is_not_found (search self key types) = false.
Proof.
  induction types as [|t types IH]; simpl; [reflexivity|].
  apply is_not_found_bind; [apply self_converters_not_found|].
  intros d. destruct (d !! key t); [reflexivity|exact IH].
Qed.

(** No run of [get_converter] ends in the converter-not-found error:
    the only [raise] of it sits behind a format specification that
    [format_class] rejects. *)
Lemma get_converter_not_found_unreachable g self column :
  is_not_found (get_converter g self column) = false.
Proof.
  unfold get_converter.
  apply is_not_found_bind; [apply getattr_not_found|]. intros use_mro.
  apply is_not_found_bind.
  { destruct (truthy use_mro); [|reflexivity].
    unfold load_global. case_bool_decide; reflexivity. }
  intros types.
  apply is_not_found_bind; [apply search_not_found|]. intros [h|]; [reflexivity|].
  apply is_not_found_bind; [apply search_not_found|]. intros [h|]; [reflexivity|].
  apply is_not_found_bind; [destruct types; reflexivity|]. intros t0.
  reflexivity.
Qed.

End Registry.

(** C1. Claimed: for every type name a registered handler method
    declares, [get_converter] on a column of exactly that type returns
    the handler, the construction-time scan having filled the mapping.
    The code at the failing input: [conv_String] carries no marker
    after [converts], the scan of [ModelTableConverter()] leaves the
    mapping without a ["String"] entry, the instance has no
    [converters] attribute, and the lookup of the [String] column
    [Item.name] raises [NameError] (with [use_mro]) or
    [AttributeError] (without), never returning [conv_String]. *)
Theorem exact_type_lookup_finds_no_handler :
  h_converter_for conv_String = None
  /\ ModelTableConverter_scanned None true !! "String" = None
  /\ getattr (ModelTableConverter None true) "converters"
     = Raise (AttributeError "converters")
  /\ get_converter module_globals (ModelTableConverter None true) Item_name
     = Raise (NameError "inspect")
  /\ get_converter module_globals (ModelTableConverter None false) Item_name
     = Raise (AttributeError "converters").
Proof.
  split; [reflexivity|]. split.
  - rewrite ModelTableConverter_scanned_unchanged. reflexivity.
  - split; [reflexivity|]. split; reflexivity.
Qed.

(** C2. Claimed: the lookup walks the ancestry chain, qualified names
    first and bare names second, so a column whose exact type is
    unknown resolves to a registered ancestor's handler.  The code at
    the failing input, a [Text] column with [String] registered:
    [get_converter] raises [NameError] for [inspect], also when the
    mapping has been stored on the instance by hand; only in a
    namespace that binds [inspect] does the same call return the
    ancestor's handler. *)
Theorem ancestor_lookup_raises_NameError :
  get_converter module_globals
                (ModelTableConverter (Some String_converters) true)
                Text_column
  = Raise (NameError "inspect")
  /\ get_converter module_globals
                   (setattr (ModelTableConverter (Some String_converters) true)
                            "converters" (ADict String_converters))
                   Text_column
     = Raise (NameError "inspect")
  /\ get_converter ("inspect" :: module_globals)
                   (setattr (ModelTableConverter (Some String_converters) true)
                            "converters" (ADict String_converters))
                   Text_column
     = Ok conv_String.
Proof.
  split; [reflexivity|]. split; [reflexivity|].
  erewrite get_converter_order with (use_mro := true) (d := String_converters).
  - reflexivity.
  - set_solver.
  - reflexivity.
  - reflexivity.
Qed.

(** C3. Claimed: a column whose ancestry holds no registered name makes
    [get_converter] raise [ModelTableConversionError].  The code: no
    run of [get_converter] ends in that error.  For the unregistered
    [Integer] column [Item.price] the converter as constructed raises
    [NameError]; with [use_mro] off and an empty mapping stored on the
    instance both loops run dry and formatting the message raises
    [TypeError]. *)
Theorem not_found_error_is_never_raised :
  (forall g self column, is_not_found (get_converter g self column) = false)
  /\ get_converter module_globals (ModelTableConverter None true) Item_price
     = Raise (NameError "inspect")
  /\ get_converter module_globals
                   (setattr (ModelTableConverter None false)
                            "converters" (ADict ∅))
                   Item_price
     = Raise (TypeError "unsupported format string passed to type.__format__").
Proof.
  split; [apply get_converter_not_found_unreachable|].
  split; reflexivity.
Qed.

(** C4. For every property that has a direction, [convert] called
    without a database session raises [ModelTableConversionError] with
    a message naming the property's key, and invokes no handler. *)
Theorem convert_relationship_needs_session
        (S : Type) (self : instance) (model_ : string) (prop : Property)
        (field_args : option (gmap string pyval)) (d : direction) :
  prop_direction prop = Some d ->
  convert (S := S) self model_ prop field_args None
  = ([], Raise (ModelTableConversionError
                  ("Cannot convert field " +:+ prop_key prop
                     +:+ ", need database session."))).
Proof.
  intros Hd. unfold convert. rewrite Hd. simpl.
  rewrite andb_false_r. reflexivity.
Qed.

Lemma convert_relationship_needs_session_witness :
  prop_direction Account_orders = Some ONETOMANY
  /\ convert (S := database) (ModelTableConverter None true) "Account"
             Account_orders None None
     = ([], Raise (ModelTableConversionError
                     "Cannot convert field orders, need database session.")).
Proof.
  split; [reflexivity|].
  apply (convert_relationship_needs_session database
           (ModelTableConverter None true) "Account" Account_orders None
           ONETOMANY).
  reflexivity.
Defined.

(** ** Counting tags in concatenated markup *)

Section TagCount.

Variable needle : string.
Hypothesis needle_tag : tag_like needle = true.

Lemma startswith_app_before_tag n a b :
  no_lt n = true -> b = "" \/ head_lt b = true ->
  startswith n (a +:+ b) = startswith n a.
Proof.
  revert a. induction n as [|x n IH]; intros a Hn Hb; [reflexivity|].
  simpl in Hn. apply andb_prop in Hn as [Hx Hn].
  destruct a as [|y a]; simpl.
  - destruct Hb as [->|Hb]; [reflexivity|].
    destruct b as [|c b]; [reflexivity|]. simpl in Hb.
    apply Ascii.eqb_eq in Hb as ->.
    apply negb_true_iff in Hx. simpl. by rewrite Hx.
  - destruct (Ascii.eqb x y); [by apply IH|reflexivity].
Qed.

(** Nothing is gained or lost at a seam followed by a tag. *)
Lemma count_sub_app_r a b :
  b = "" \/ head_lt b = true ->
  count_sub needle (a +:+ b) = (count_sub needle a + count_sub needle b)%nat.
Proof.
  intros Hb. induction a as [|c a IH]; [reflexivity|].
  simpl. rewrite IH.
  destruct needle as [|x tag]; [discriminate|].
  simpl in needle_tag.
  apply andb_prop in needle_tag as [H1 _].
  apply andb_prop in H1 as [_ Htag].
  simpl. rewrite (startswith_app_before_tag tag a b Htag Hb). lia.
Qed.

Lemma startswith_app_after_tag n a b :
  gt_only_last n = true -> ends_gt a = true ->
  startswith n (a +:+ b) = startswith n a.
Proof.
  revert a. induction n as [|x n IH]; intros a Hn Ha; [reflexivity|].
  destruct a as [|y a]; [discriminate|]. simpl.
  destruct (Ascii.eqb x y) eqn:Exy; [|reflexivity].
  apply Ascii.eqb_eq in Exy as <-.
  destruct a as [|z a].
  - simpl in Ha. apply Ascii.eqb_eq in Ha as ->.
    destruct n as [|x' n]; [reflexivity|]. discriminate.
  - apply IH.
    + destruct n as [|x' n]; [reflexivity|].
      simpl in Hn. by apply andb_prop in Hn as [_ Hn].
    + exact Ha.
Qed.

(** Nor at a seam preceded by one. *)
Lemma count_sub_app_l a b :
  a = "" \/ ends_gt a = true ->
  count_sub needle (a +:+ b) = (count_sub needle a + count_sub needle b)%nat.
Proof.
  intros [->|Ha]; [reflexivity|].
  assert (Hlast : gt_only_last needle = true).
  { destruct needle as [|x tag]; [discriminate|].
    unfold tag_like in needle_tag.
    by apply andb_prop in needle_tag as [_ ?]. }
  induction a as [|c a IH]; [discriminate|].
  change (String c a +:+ b) with (String c (a +:+ b)).
  cbn [count_sub].
  change (String c (a +:+ b)) with (String c a +:+ b).
  rewrite (startswith_app_after_tag needle (String c a) b Hlast Ha).
  destruct a as [|c' a].
  - change ("" +:+ b) with b. simpl. lia.
  - rewrite IH by exact Ha. lia.
Qed.

(** Text without ['<'] holds no tag. *)
Lemma count_sub_no_lt t : no_lt t = true -> count_sub needle t = 0%nat.
Proof.
  induction t as [|c t IH]; [reflexivity|].
  simpl. intros H. apply andb_prop in H as [Hc Ht].
  rewrite (IH Ht).
  destruct needle as [|x tag]; [discriminate|].
  simpl in needle_tag.
  apply andb_prop in needle_tag as [H1 _].
  apply andb_prop in H1 as [Hx _].
  apply negb_true_iff in Hc.
  cbn [startswith].
  destruct (Ascii.eqb x c) eqn:Exc; [|reflexivity].
  apply Ascii.eqb_eq in Exc as ->. congruence.
Qed.

(** [open ++ inner ++ close] counts part by part. *)
Lemma count_sub_enclosed open inner close :
  ends_gt open = true -> head_lt close = true ->
  count_sub needle (open +:+ inner +:+ close)
  = (count_sub needle open + count_sub needle inner
     + count_sub needle close)%nat.
Proof.
  intros Ho Hc.
  rewrite count_sub_app_l by (right; exact Ho).
  rewrite count_sub_app_r by (right; exact Hc). lia.
Qed.

End TagCount.

(** ** The markup the renderer builds *)

Section Markup.

Lemma append_cons c a b : String c a +:+ b = String c (a +:+ b).
Proof. reflexivity. Qed.

Lemma append_assoc a b c : (a +:+ b) +:+ c = a +:+ (b +:+ c).
Proof.
  induction a as [|x a IH]; [reflexivity|].
  rewrite !append_cons. by rewrite IH.
Qed.

Lemma no_lt_app a b : no_lt (a +:+ b) = no_lt a && no_lt b.
Proof.
  induction a as [|x a IH]; [reflexivity|].
  rewrite append_cons. simpl. rewrite IH. by rewrite andb_assoc.
Qed.

Lemma no_lt_escape_char c : no_lt (escape_char c) = true.
Proof.
  unfold escape_char.
  repeat (match goal with
          | |- context [if ?b then _ else _] => destruct b eqn:?
          end; [reflexivity|]).
  simpl. rewrite andb_true_r. apply negb_true_iff.
  match goal with H : Ascii.eqb c "<" = false |- _ => exact H end.
Qed.

(** Escaped text contains no ['<'], whatever went in. *)
Lemma no_lt_escape_str s : no_lt (escape_str s) = true.
Proof.
  induction s as [|c s IH]; [reflexivity|].
  simpl. rewrite no_lt_app, no_lt_escape_char, IH. reflexivity.
Qed.

Lemma ends_gt_app a b : ends_gt b = true -> ends_gt (a +:+ b) = true.
Proof.
  intros Hb. induction a as [|c a IH]; [exact Hb|].
  rewrite append_cons.
  destruct (a +:+ b) as [|c' r] eqn:E; [discriminate IH|].
  exact IH.
Qed.

Lemma ends_gt_enclosed open inner close :
  ends_gt close = true -> ends_gt (open +:+ inner +:+ close) = true.
Proof. intros H. by do 2 apply ends_gt_app. Qed.

Lemma counted_tag_like needle : counted needle -> tag_like needle = true.
Proof. intros [->| ->]; reflexivity. Qed.

(** A joined list of pieces each ending in a tag. *)
Lemma count_sub_join needle (k : nat) l :
  tag_like needle = true ->
  Forall (fun e => ends_gt e = true /\ count_sub needle e = k) l ->
  count_sub needle (join l) = (k * length l)%nat.
Proof.
  intros Hn. induction 1 as [|e l [He Hk] _ IH]; simpl; [lia|].
  rewrite count_sub_app_l by (assumption || by right).
  rewrite Hk, IH. lia.
Qed.

Lemma head_lt_join l :
  Forall (fun e => head_lt e = true) l ->
  join l = "" \/ head_lt (join l) = true.
Proof.
  destruct 1 as [|e l He _]; [by left|right].
  simpl. destruct e as [|c e]; [discriminate|exact He].
Qed.

Lemma count_sub_li needle text :
  counted needle -> no_lt text = true ->
  count_sub needle ("<li>" +:+ text +:+ "</li>") = 0%nat.
Proof.
  intros Hn Ht. pose proof (counted_tag_like _ Hn) as Htag.
  rewrite count_sub_enclosed by (assumption || reflexivity).
  rewrite (count_sub_no_lt _ Htag _ Ht).
  by destruct Hn as [->| ->].
Qed.

Lemma count_sub_ul needle items :
  counted needle -> count_sub needle (ul items) = 0%nat.
Proof.
  intros Hn. pose proof (counted_tag_like _ Hn) as Htag. unfold ul.
  rewrite count_sub_enclosed by (assumption || reflexivity).
  rewrite (count_sub_join needle 0).
  - by destruct Hn as [->| ->].
  - exact Htag.
  - rewrite !Forall_map. apply Forall_forall. intros item _.
    unfold compose. split.
    + by apply ends_gt_enclosed.
    + apply count_sub_li; [exact Hn|apply no_lt_escape_str].
Qed.

Lemma count_sub_td needle obj :
  counted needle -> count_sub needle (td obj) = 0%nat.
Proof.
  intros Hn. pose proof (counted_tag_like _ Hn) as Htag.
  destruct obj as [v|items]; unfold td, td_text;
    rewrite count_sub_enclosed by (assumption || reflexivity);
    cbn [escape].
  - rewrite (count_sub_no_lt _ Htag _ (no_lt_escape_str _)).
    by destruct Hn as [->| ->].
  - rewrite (count_sub_ul _ _ Hn). by destruct Hn as [->| ->].
Qed.

Lemma ends_gt_td obj : ends_gt (td obj) = true.
Proof. destruct obj; by apply ends_gt_enclosed. Qed.

(** A body row: one [<tr>], no [<th>]. *)
Lemma count_sub_tr_row tds :
  Forall (fun e => ends_gt e = true /\ count_sub "<tr>" e = 0%nat) tds ->
  count_sub "<tr>" ("<tr>" +:+ join tds +:+ "</tr>") = 1%nat.
Proof.
  intros H. rewrite count_sub_enclosed by reflexivity.
  rewrite (count_sub_join "<tr>" 0 tds eq_refl H). reflexivity.
Qed.

Lemma count_sub_th_row tds :
  Forall (fun e => ends_gt e = true /\ count_sub "<th>" e = 0%nat) tds ->
  count_sub "<th>" ("<tr>" +:+ join tds +:+ "</tr>") = 0%nat.
Proof.
  intros H. rewrite count_sub_enclosed by reflexivity.
  rewrite (count_sub_join "<th>" 0 tds eq_refl H). reflexivity.
Qed.

Lemma tds_counted needle values :
  counted needle ->
  Forall (fun e => ends_gt e = true /\ count_sub needle e = 0%nat)
         (map td values).
Proof.
  intros Hn. rewrite Forall_map. apply Forall_forall. intros v _.
  unfold compose. split; [apply ends_gt_td|by apply count_sub_td].
Qed.

(** The header row: one [<tr>], and one [<th>] per text when the texts
    bring no tags of their own. *)
Lemma count_sub_th_header texts :
  Forall (fun t => no_lt t = true) texts ->
  count_sub "<th>" (header_row texts) = length texts.
Proof.
  intros H. unfold header_row.
  rewrite count_sub_enclosed by reflexivity.
  rewrite (count_sub_join "<th>" 1).
  - rewrite length_map. simpl. lia.
  - reflexivity.
  - rewrite Forall_map. eapply Forall_impl; [exact H|].
    intros t Ht. unfold compose. split; [by apply ends_gt_enclosed|].
    rewrite count_sub_enclosed by reflexivity.
    by rewrite (count_sub_no_lt "<th>" eq_refl _ Ht).
Qed.

Lemma count_sub_tr_header texts :
  Forall (fun t => no_lt t = true) texts ->
  count_sub "<tr>" (header_row texts) = 1%nat.
Proof.
  intros H. unfold header_row.
  rewrite count_sub_enclosed by reflexivity.
  rewrite (count_sub_join "<tr>" 0).
  - reflexivity.
  - reflexivity.
  - rewrite Forall_map. eapply Forall_impl; [exact H|].
    intros t Ht. unfold compose. split; [by apply ends_gt_enclosed|].
    rewrite count_sub_enclosed by reflexivity.
    by rewrite (count_sub_no_lt "<tr>" eq_refl _ Ht).
Qed.

End Markup.

(** ** Tables *)

Section Tables.

Lemma for_each_length {A B} (f : A -> result B) l ys :
  for_each f l = Ok ys -> length ys = length l.
Proof.
  revert ys. induction l as [|x l IH]; intros ys; simpl.
  - by intros [= <-].
  - destruct (f x) as [y|e]; simpl; [|discriminate].
    destruct (for_each f l) as [ys'|e]; simpl; [|discriminate].
    intros [= <-]. simpl. f_equal. by apply IH.
Qed.

Lemma for_each_Forall {A B} (f : A -> result B) (P : B -> Prop) l ys :
  (forall x y, f x = Ok y -> P y) ->
  for_each f l = Ok ys -> Forall P ys.
Proof.
  intros HP. revert ys. induction l as [|x l IH]; intros ys; simpl.
  - intros [= <-]. constructor.
  - destruct (f x) as [y|e] eqn:E; simpl; [|discriminate].
    destruct (for_each f l) as [ys'|e]; simpl; [|discriminate].
    intros [= <-]. constructor; [by eapply HP|by apply IH].
Qed.

Lemma for_each_map_ok {A B C} (f : B -> result C) (g : A -> B) l :
  (forall x, is_ok (f (g x)) = true) ->
  exists ys, for_each f (map g l) = Ok ys.
Proof.
  intros Hok. induction l as [|x l [ys IH]]; simpl; [by eexists|].
  specialize (Hok x). destruct (f (g x)) as [y|e]; [|discriminate].
  simpl. rewrite IH. simpl. by eexists.
Qed.

(** Every row [body_row] returns ends in a tag, holds one [<tr>] and no
    [<th>]: cell texts are escaped and cannot add any. *)
Lemma body_row_shape {T} (sess : option T) keys inst row :
  body_row sess keys inst = Ok row ->
  ends_gt row = true
  /\ count_sub "<tr>" row = 1%nat
  /\ count_sub "<th>" row = 0%nat.
Proof.
  unfold body_row. destruct sess as [s|]; simpl; [|discriminate].
  destruct (for_each (inst_getattr inst) keys) as [values|e]; simpl;
    [|discriminate].
  intros [= <-]. split; [by apply ends_gt_enclosed|]. split.
  - apply count_sub_tr_row, tds_counted. by right.
  - apply count_sub_th_row, tds_counted. by left.
Qed.

Lemma count_sub_table_markup needle header rows :
  counted needle ->
  Forall (fun row => ends_gt row = true) rows ->
  count_sub needle (table_markup header rows)
  = (count_sub needle header + count_sub needle (join rows))%nat.
Proof.
  intros Hn Hrows. pose proof (counted_tag_like _ Hn) as Htag.
  unfold table_markup.
  rewrite count_sub_app_r by (assumption || by right).
  rewrite (count_sub_app_l needle Htag "<table><thead>") by (by right).
  rewrite (count_sub_app_r needle Htag header) by (by right).
  rewrite count_sub_enclosed by (assumption || reflexivity).
  destruct Hn as [->| ->]; simpl; lia.
Qed.

Lemma html_table_markup {T} (sess : T) m instances texts rows :
  for_each th_from_property (m_attrs m) = Ok texts ->
  for_each (body_row (Some sess) (map prop_key (m_attrs m))) instances
  = Ok rows ->
  html_table m instances (Some sess)
  = Ok (table_markup (header_row texts) rows).
Proof.
  intros Ht Hr. unfold html_table. rewrite Ht. simpl. rewrite Hr. reflexivity.
Qed.

(** The counts of a table built from tag-free header texts. *)
Lemma table_markup_counts {T} (sess : T) keys instances texts rows :
  Forall (fun t => no_lt t = true) texts ->
  for_each (body_row (Some sess) keys) instances = Ok rows ->
  count_sub "<th>" (table_markup (header_row texts) rows) = length texts
  /\ count_sub "<tr>" (table_markup (header_row texts) rows)
     = S (length instances)
  /\ count_sub "<tr>" (join rows) = length instances.
Proof.
  intros Ht Hr.
  pose proof (for_each_length _ _ _ Hr) as Hlen.
  pose proof (for_each_Forall _ _ _ _
                (fun inst row => body_row_shape (Some sess) keys inst row) Hr)
    as Hshape.
  assert (Hgt : Forall (fun row => ends_gt row = true) rows).
  { eapply Forall_impl; [exact Hshape|]. by intros row (? & _). }
  assert (Htr : count_sub "<tr>" (join rows) = length instances).
  { rewrite (count_sub_join "<tr>" 1); [lia|reflexivity|].
    eapply Forall_impl; [exact Hshape|]. by intros row (? & ? & _). }
  assert (Hth : count_sub "<th>" (join rows) = 0%nat).
  { rewrite (count_sub_join "<th>" 0); [lia|reflexivity|].
    eapply Forall_impl; [exact Hshape|]. by intros row (? & _ & ?). }
  split; [|split; [|exact Htr]].
  - rewrite count_sub_table_markup by (assumption || by left).
    rewrite count_sub_th_header by exact Ht. lia.
  - rewrite count_sub_table_markup by (assumption || by right).
    rewrite count_sub_tr_header by exact Ht. lia.
Qed.

(** The header texts of the four mapped classes. *)
Lemma schema_header_texts m :
  In m mappers ->
  exists texts,
    for_each th_from_property (m_attrs m) = Ok texts
    /\ Forall (fun t => no_lt t = true) texts
    /\ length texts = length (m_attrs m).
Proof.
  intros [<-|[<-|[<-|[<-|[]]]]];
    (eexists; split; [reflexivity|]; split; [|reflexivity]);
    repeat constructor.
Qed.

(** Instances loaded from the database carry every mapped attribute. *)
Lemma schema_rows_render db m :
  In m mappers ->
  exists rows,
    for_each (body_row (Some db) (map prop_key (m_attrs m))) (scalars db m)
    = Ok rows
    /\ length (scalars db m) = row_count db (m_tablename m).
Proof.
  intros [<-|[<-|[<-|[<-|[]]]]].
  - destruct (for_each_map_ok
                (body_row (Some db) (map prop_key (m_attrs Item)))
                load_item (items db)) as [rows Hrows]; [reflexivity|].
    exists rows. split; [exact Hrows|]. apply length_map.
  - destruct (for_each_map_ok
                (body_row (Some db) (map prop_key (m_attrs Account)))
                (load_account db) (accounts db)) as [rows Hrows]; [reflexivity|].
    exists rows. split; [exact Hrows|]. apply length_map.
  - destruct (for_each_map_ok
                (body_row (Some db) (map prop_key (m_attrs Order)))
                (load_order db) (orders db)) as [rows Hrows]; [reflexivity|].
    exists rows. split; [exact Hrows|]. apply length_map.
  - destruct (for_each_map_ok
                (body_row (Some db) (map prop_key (m_attrs OrderItem)))
                load_order_item (orders_items db)) as [rows Hrows]; [reflexivity|].
    exists rows. split; [exact Hrows|]. apply length_map.
Qed.

Lemma schema_tablename_known m :
  In m mappers ->
  bool_decide (m_tablename m ∈ metadata_tables) = true
  /\ mapped_class_from_tablename mappers (m_tablename m) = Some m
  /\ no_lt (m_tablename m) = true.
Proof.
  intros [<-|[<-|[<-|[<-|[]]]]]; (split; [|split; reflexivity]);
    vm_compute; reflexivity.
Qed.

(** The table endpoint for a mapped class: what it returns. *)
Lemma dispatch_table_markup db m :
  In m mappers ->
  exists texts rows,
    dispatch_request db (Some (m_tablename m))
    = Ok (("<h1>" +:+ m_tablename m +:+ "</h1>")
            +:+ table_markup (header_row texts) rows)
    /\ for_each th_from_property (m_attrs m) = Ok texts
    /\ for_each (body_row (Some db) (map prop_key (m_attrs m))) (scalars db m)
       = Ok rows.
Proof.
  intros Hm.
  destruct (schema_header_texts m Hm) as (texts & Ht & _ & _).
  destruct (schema_rows_render db m Hm) as (rows & Hr & _).
  destruct (schema_tablename_known m Hm) as (Hin & Hcls & _).
  exists texts, rows. split; [|by split].
  unfold dispatch_request. rewrite Hin. unfold dispatch_table. rewrite Hcls.
  rewrite (html_table_markup db m (scalars db m) texts rows Ht Hr).
  reflexivity.
Qed.

End Tables.

(** C7. For each of the four mapped classes and any database content,
    the table endpoint returns a heading followed by a table whose
    header row holds one [<th>] per mapped property and whose body is
    one [<tr>] row per stored instance; counted over the whole page
    that is as many [<th>] as properties and one [<tr>] more than
    there are instances (the header row). *)
Theorem table_endpoint_header_cells_and_rows (db : database) (m : model) :
  In m mappers ->
  exists texts rows,
    dispatch_request db (Some (m_tablename m))
    = Ok (("<h1>" +:+ m_tablename m +:+ "</h1>")
            +:+ table_markup (header_row texts) rows)
    /\ length texts = length (m_attrs m)
    /\ count_sub "<th>" (header_row texts) = length (m_attrs m)
    /\ length rows = row_count db (m_tablename m)
    /\ count_sub "<tr>" (join rows) = row_count db (m_tablename m)
    /\ count_sub "<th>" (("<h1>" +:+ m_tablename m +:+ "</h1>")
                           +:+ table_markup (header_row texts) rows)
       = length (m_attrs m)
    /\ count_sub "<tr>" (("<h1>" +:+ m_tablename m +:+ "</h1>")
                           +:+ table_markup (header_row texts) rows)
       = S (row_count db (m_tablename m)).
Proof.
  intros Hm.
  destruct (dispatch_table_markup db m Hm) as (texts & rows & Hd & Ht & Hr).
  destruct (schema_header_texts m Hm) as (texts' & Ht' & Hfree & Hlen).
  rewrite Ht in Ht'. injection Ht' as <-.
  destruct (schema_rows_render db m Hm) as (rows' & _ & Hcount).
  destruct (schema_tablename_known m Hm) as (_ & _ & Hname).
  destruct (table_markup_counts db _ _ texts rows Hfree Hr)
    as (Hth & Htr & Hbody).
  pose proof (for_each_length _ _ _ Hr) as Hrows.
  exists texts, rows.
  split; [exact Hd|]. split; [exact Hlen|].
  split; [rewrite count_sub_th_header by exact Hfree; exact Hlen|].
  split; [congruence|]. split; [congruence|].
  assert (Hh1 : forall needle, counted needle ->
             count_sub needle ("<h1>" +:+ m_tablename m +:+ "</h1>") = 0%nat).
  { intros needle Hn. pose proof (counted_tag_like _ Hn) as Htag.
    rewrite count_sub_enclosed by (assumption || reflexivity).
    rewrite (count_sub_no_lt _ Htag _ Hname).
    by destruct Hn as [->| ->]. }
  split.
  - rewrite (count_sub_app_l "<th>" eq_refl)
      by (right; by apply ends_gt_enclosed).
    rewrite Hh1 by (by left). rewrite Hth. exact Hlen.
  - rewrite (count_sub_app_l "<tr>" eq_refl)
      by (right; by apply ends_gt_enclosed).
    rewrite Hh1 by (by right). rewrite Htr. simpl. congruence.
Qed.

Lemma table_endpoint_header_cells_and_rows_witness :
  In Item mappers
  /\ exists texts rows,
      dispatch_request two_items (Some "items")
      = Ok (("<h1>" +:+ "items" +:+ "</h1>")
              +:+ table_markup (header_row texts) rows)
      /\ length texts = 3%nat
      /\ count_sub "<th>" (header_row texts) = 3%nat
      /\ length rows = 2%nat
      /\ count_sub "<tr>" (join rows) = 2%nat
      /\ count_sub "<th>" (("<h1>" +:+ "items" +:+ "</h1>")
                             +:+ table_markup (header_row texts) rows)
         = 3%nat
      /\ count_sub "<tr>" (("<h1>" +:+ "items" +:+ "</h1>")
                             +:+ table_markup (header_row texts) rows)
         = 3%nat.
Proof.
  split; [left; reflexivity|].
  apply (table_endpoint_header_cells_and_rows two_items Item).
  left; reflexivity.
Defined.

(** ** The dispatcher *)

Lemma dispatch_list_ok : is_ok dispatch_list = true.
Proof. reflexivity. Qed.

Lemma metadata_tables_mappers tablename :
  tablename ∈ metadata_tables <->
  exists m, In m mappers /\ tablename = m_tablename m.
Proof.
  unfold metadata_tables. rewrite list_elem_of_In, in_map_iff.
  split; intros (m & H1 & H2); exists m; [by split|by split].
Qed.

(** C5, as the code has it.  Three outcomes, decided by the name alone:
    without a name the view returns the list; with the table name of a
    mapped class it returns that class's table; with any other name it
    calls [flask.abort(404)], which raises the HTTP exception out of
    the view, and it is the framework that answers 404.  The names
    that select a table are exactly the table names of the mappers. *)
Theorem dispatch_request_outcomes (db : database) :
  (exists html, dispatch_request db None = Ok html /\ dispatch_list = Ok html)
  /\ (forall m, In m mappers ->
        exists html,
          dispatch_request db (Some (m_tablename m)) = Ok html
          /\ dispatch_table db (m_tablename m) = Ok html)
  /\ (forall tablename, tablename ∉ metadata_tables ->
        dispatch_request db (Some tablename) = Raise (HTTPException 404)
        /\ full_dispatch_request db (Some tablename) = Ok (Response 404 ""))
  /\ (forall tablename,
        tablename ∈ metadata_tables <->
        exists m, In m mappers /\ tablename = m_tablename m).
Proof.
  split; [|split; [|split]].
  - simpl. destruct dispatch_list as [html|e] eqn:E; [by exists html|].
    discriminate.
  - intros m Hm.
    destruct (dispatch_table_markup db m Hm) as (texts & rows & Hd & _ & _).
    eexists. split; [exact Hd|].
    destruct (schema_tablename_known m Hm) as (Hin & _ & _).
    unfold dispatch_request in Hd. by rewrite Hin in Hd.
  - intros tablename Hnot. unfold full_dispatch_request, dispatch_request.
    by rewrite bool_decide_eq_false_2.
  - apply metadata_tables_mappers.
Qed.

Lemma dispatch_request_outcomes_witness :
  In Item mappers
  /\ ("nope" ∉ metadata_tables)
  /\ (exists html, dispatch_request two_items (Some "items") = Ok html
                   /\ dispatch_table two_items "items" = Ok html)
  /\ dispatch_request two_items (Some "nope") = Raise (HTTPException 404)
  /\ full_dispatch_request two_items (Some "nope") = Ok (Response 404 "").
Proof.
  assert (Hnope : "nope" ∉ metadata_tables).
  { apply (bool_decide_unpack _). vm_compute. exact I. }
  destruct (dispatch_request_outcomes two_items) as (_ & Hknown & Hother & _).
  split; [left; reflexivity|]. split; [exact Hnope|].
  split; [apply (Hknown Item); left; reflexivity|].
  apply (Hother "nope" Hnope).
Defined.

(** C5 as claimed fails: named by its entity name [Item] the request is
    refused although the entity is in the schema, and for [Item] as for
    [nope] the outcome of the dispatcher is a raised exception, not a
    response it returns. *)
Lemma unknown_name_leaves_dispatcher_as_exception :
  In "Item" (map m_name mappers)
  /\ dispatch_request two_items (Some "Item") = Raise (HTTPException 404)
  /\ dispatch_request two_items (Some "nope") = Raise (HTTPException 404)
  /\ is_ok (dispatch_request two_items (Some "nope")) = false.
Proof. split; [left; reflexivity|]. split; [|split]; reflexivity. Qed.

(** C6. The list endpoint returns one list item per entity of the
    schema, each linking to the entity's table and showing its name:
    the items are a permutation of the four entity links, and in the
    page each of the four links occurs once among four links in all. *)
Theorem list_endpoint_one_link_per_entity :
  exists elements html,
    for_each list_element metadata_tables = Ok elements
    /\ html = "<ul>" +:+ join elements +:+ "</ul>"
    /\ dispatch_list = Ok html
    /\ Permutation elements (map entity_link schema_entities)
    /\ Permutation (map m_name mappers) (map snd schema_entities)
    /\ count_sub "<li><a href=" html = 4%nat
    /\ map (fun e => count_sub (entity_link e) html) schema_entities
       = [1; 1; 1; 1]%nat.
Proof.
  eexists. eexists.
  split; [reflexivity|]. split; [reflexivity|]. split; [reflexivity|].
  split; [apply perm_swap|]. split; [apply perm_swap|].
  split; reflexivity.
Qed.

(** ** Header labels *)

(** C8, as the code has it.  For a relationship the label is the
    escaped name of the referenced class; for a column property it is
    the label declared in the first column's [info], and failing that
    the name of that column.  For every property of the four mapped
    classes this is the label of the specification: there the column
    is named like the property and escaping changes nothing. *)
Theorem th_from_property_label (prop : Property) :
  (forall d foreign_model,
      prop_direction prop = Some d ->
      prop_foreign prop = Some foreign_model ->
      th_from_property prop = Ok (escape_str foreign_model))
  /\ (forall column rest,
        prop_direction prop = None ->
        prop_columns prop = Some (column :: rest) ->
        th_from_property prop
        = Ok (default (col_name column) (declared_label column)))
  /\ (forall m text,
        In m mappers -> In prop (m_attrs m) ->
        th_from_property prop = Ok text ->
        label_as_specified prop = Some text).
Proof.
  split; [|split].
  - intros d foreign_model Hd Hf. unfold th_from_property.
    by rewrite Hd, Hf.
  - intros column rest Hd Hc. unfold th_from_property, declared_label.
    rewrite Hd, Hc. simpl.
    destruct (col_info column !! "th") as [th|]; simpl; [|reflexivity].
    destruct (th !! "text"); reflexivity.
  - intros m text Hm Hp.
    destruct Hm as [<-|[<-|[<-|[<-|[]]]]]; simpl in Hp;
      repeat (destruct Hp as [<-|Hp]; [vm_compute; by intros [= <-]|]);
      destruct Hp.
Qed.

Lemma th_from_property_label_witness :
  th_from_property Account_orders = Ok "Order"
  /\ th_from_property (column_property Item_name) = Ok "Name"
  /\ th_from_property renamed_property = Ok "id"
  /\ label_as_specified Account_orders = Some "Order".
Proof.
  split; [|split; [|split]].
  - apply (proj1 (th_from_property_label Account_orders) ONETOMANY "Order");
      reflexivity.
  - apply (proj1 (proj2 (th_from_property_label (column_property Item_name)))
             Item_name []); reflexivity.
  - exact (proj1 (proj2 (th_from_property_label renamed_property))
             (MkColumn "id" sa_Integer ∅) [] eq_refl eq_refl).
  - apply (proj2 (proj2 (th_from_property_label Account_orders)) Account "Order").
    + right; left; reflexivity.
    + right; right; left; reflexivity.
    + reflexivity.
Defined.

(** C8 as claimed fails where a column is named differently from its
    property: with no declared label, the header shows the column's
    name [id], not the property's name [user_id]. *)
Lemma header_label_is_column_name_not_property_name :
  prop_key renamed_property = "user_id"
  /\ label_as_specified renamed_property = Some "user_id"
  /\ th_from_property renamed_property = Ok "id"
  /\ th_from_property renamed_property <> Ok (prop_key renamed_property).
Proof. repeat split; discriminate. Qed.

(** ** [model_columns] *)

(** C10. [model_columns] returns the empty mapping for every model
    class, and the class [model_table] builds has no attributes. *)
Theorem model_columns_empty (m : model) :
  model_columns m = ∅
  /\ forall type_name bases,
      t_attributes (model_table m type_name bases) = ∅.
Proof.
  assert (H : model_columns m = ∅).
  { unfold model_columns. generalize (∅ : gmap string Property).
    induction (m_attrs m) as [|prop props IH]; intros d; [reflexivity|].
    simpl. apply IH. }
  split; [exact H|]. intros type_name bases. exact H.
Qed.

(** ** The seed command *)

Lemma is_fresh_eq db : is_fresh db = true -> db = fresh_database.
Proof.
  destruct db as [[|? ?] [|? ?] [|? ?] [|? ?]]; simpl; intros H;
    reflexivity || discriminate.
Qed.

(** C9. Run on a database whose tables are empty, the seed command
    succeeds and leaves 4 accounts, 7 items and 1 order; the order is
    linked to 2 items through 2 rows of [orders_items].  This holds
    for every fresh database alike. *)
Theorem init_data_counts (db : database) :
  is_fresh db = true ->
  exists db',
    init_data db = Ok db'
    /\ length (accounts db') = 4%nat
    /\ length (items db') = 7%nat
    /\ length (orders db') = 1%nat
    /\ length (orders_items db') = 2%nat
    /\ map (fun o => length (order_items db' (order_id o))) (orders db')
       = [2%nat].
Proof.
  intros H. apply is_fresh_eq in H as ->.
  eexists. split; [vm_compute; reflexivity|]. repeat split.
Qed.

Lemma init_data_counts_witness :
  is_fresh fresh_database = true
  /\ exists db',
      init_data fresh_database = Ok db'
      /\ length (accounts db') = 4%nat
      /\ length (items db') = 7%nat
      /\ length (orders db') = 1%nat
      /\ length (orders_items db') = 2%nat
      /\ map (fun o => length (order_items db' (order_id o))) (orders db')
         = [2%nat].
Proof.
  split; [reflexivity|].
  apply (init_data_counts fresh_database). reflexivity.
Defined.

(** A second run on the database just seeded is refused: the account
    names are already taken. *)
Lemma init_data_twice :
  (db ← init_data fresh_database; init_data db)
  = Raise (IntegrityError "accounts.name").
Proof. vm_compute. reflexivity. Qed.

(** * Further properties of the code *)

(** ** Registration by the constructor's scan *)

Section Scan.

Implicit Types (self : instance) (d : gmap string handler).

Lemma register_lookup_in obj cns d cn :
  In cn cns -> register obj cns d !! cn = Some obj.
Proof.
  unfold register. revert d.
  induction cns as [|c cns IH]; intros d Hin; [destruct Hin|].
  simpl. destruct (in_dec string_dec cn cns) as [Hlater|Hnot].
  - by apply IH.
  - destruct Hin as [->|Hin]; [|contradiction].
    clear IH. revert d Hnot.
    induction cns as [|c cns IH]; intros d Hnot; simpl.
    + apply lookup_insert_eq.
    + simpl in Hnot.
      rewrite insert_insert_ne by (intros ->; apply Hnot; by left).
      apply IH. intros H. apply Hnot. by right.
Qed.

Lemma register_lookup_notin obj cns d cn :
  ~ In cn cns -> register obj cns d !! cn = d !! cn.
Proof.
  unfold register. revert d.
  induction cns as [|c cns IH]; intros d Hnot; [reflexivity|].
  simpl. rewrite IH by (intros H; apply Hnot; by right).
  apply lookup_insert_ne. intros ->. apply Hnot. by left.
Qed.

Lemma scan_snoc self names name d :
  scan self (names ++ [name]) d = scan self [name] (scan self names d).
Proof. unfold scan. by rewrite fold_left_app. Qed.

(** One turn of the scan, seen from the key [cn]. *)
Lemma scan_one_lookup self name d cn :
  (exists h, declares self name h cn /\ scan self [name] d !! cn = Some h)
  \/ ((forall h, ~ declares self name h cn)
      /\ scan self [name] d !! cn = d !! cn).
Proof.
  unfold scan, declares. simpl.
  destruct (getattr self name) as [[b|d'|h|]|e] eqn:E;
    try (right; split; [intros h [[=] _]|reflexivity]).
  destruct (h_converter_for h) as [cns|] eqn:Ecns.
  - destruct (in_dec string_dec cn cns) as [Hin|Hnot].
    + left. exists h. split; [split; [reflexivity|by exists cns]|].
      by apply register_lookup_in.
    + right. split.
      * intros h' [[= <-] (cns' & Hc & Hin)]. congruence.
      * by apply register_lookup_notin.
  - right. split; [|reflexivity].
    intros h' [[= <-] (cns' & Hc & _)]. congruence.
Qed.

(** X1. Every type name that some scanned method is marked for ends up
    in the mapping, bound to a scanned method that is marked for it. *)
Theorem scan_registers_declared self names d name h cn :
  In name names -> declares self name h cn ->
  exists name' h',
    In name' names /\ declares self name' h' cn
    /\ scan self names d !! cn = Some h'.
Proof.
  revert name h. induction names as [|last names IH] using rev_ind;
    intros name h Hin Hdecl; [destruct Hin|].
  rewrite scan_snoc.
  destruct (scan_one_lookup self last (scan self names d) cn)
    as [(h' & Hd' & Hl)|[Hnone Hl]].
  - exists last, h'. split; [apply in_or_app; right; by left|by split].
  - apply in_app_or in Hin as [Hin|[<-|[]]].
    + destruct (IH name h Hin Hdecl) as (name' & h' & Hin' & Hd' & Hl').
      exists name', h'. split; [apply in_or_app; by left|].
      split; [exact Hd'|]. by rewrite Hl.
    + destruct (Hnone h Hdecl).
Qed.

(** X2. A key that no scanned method is marked for keeps the entry the
    incoming mapping had for it (or stays absent). *)
Theorem scan_keeps_undeclared self names d cn :
  (forall name h, In name names -> ~ declares self name h cn) ->
  scan self names d !! cn = d !! cn.
Proof.
  induction names as [|last names IH] using rev_ind; intros Hnone;
    [reflexivity|].
  rewrite scan_snoc.
  destruct (scan_one_lookup self last (scan self names d) cn)
    as [(h' & Hd' & _)|[_ Hl]].
  - destruct (Hnone last h'); [apply in_or_app; right; by left|exact Hd'].
  - rewrite Hl. apply IH. intros name h Hin.
    apply Hnone. apply in_or_app. by left.
Qed.

End Scan.

Lemma scan_registers_declared_witness :
  In "conv_String" ["conv_String"; "convert"]
  /\ declares marked_instance "conv_String" marked_handler "Text"
  /\ exists name' h',
      In name' ["conv_String"; "convert"]
      /\ declares marked_instance name' h' "Text"
      /\ scan marked_instance ["conv_String"; "convert"] ∅ !! "Text" = Some h'.
Proof.
  assert (Hd : declares marked_instance "conv_String" marked_handler "Text").
  { split; [reflexivity|]. exists ["String"; "Text"].
    split; [reflexivity|right; left; reflexivity]. }
  split; [left; reflexivity|]. split; [exact Hd|].
  apply (scan_registers_declared marked_instance ["conv_String"; "convert"] ∅
           "conv_String" marked_handler "Text").
  - left; reflexivity.
  - exact Hd.
Defined.

Lemma scan_keeps_undeclared_witness :
  (forall name h, In name ["convert"] ->
                  ~ declares marked_instance name h "String")
  /\ scan marked_instance ["convert"] String_converters !! "String"
     = String_converters !! "String".
Proof.
  assert (Hnone : forall name h, In name ["convert"] ->
                                 ~ declares marked_instance name h "String").
  { intros name h [<-|[]] [Hget _]. discriminate Hget. }
  split; [exact Hnone|].
  apply (scan_keeps_undeclared marked_instance ["convert"] String_converters
           "String" Hnone).
Defined.

(** ** Lookup on the objects the constructor makes *)

Section Lookup.

Implicit Types (self : instance) (column : Column).

Lemma init_instance cls convs use_mro :
  fst (init cls convs use_mro)
  = setattr {| i_dict := ∅; i_class := cls |} "use_mro" (ABool use_mro).
Proof. reflexivity. Qed.

(** X3. Whatever class is instantiated, with whatever mapping and flag:
    unless the class itself has an attribute [converters], the new
    object has none, and [get_converter] on it returns no handler for
    any column. *)
Theorem constructed_converter_finds_nothing
        cls convs use_mro column :
  assoc "converters" cls = None ->
  getattr (fst (init cls convs use_mro)) "converters"
  = Raise (AttributeError "converters")
  /\ is_ok (get_converter module_globals (fst (init cls convs use_mro)) column)
     = false.
Proof.
  intros Hcls. rewrite init_instance.
  assert (Hget : getattr (setattr {| i_dict := ∅; i_class := cls |}
                                  "use_mro" (ABool use_mro)) "converters"
                 = Raise (AttributeError "converters")).
  { rewrite getattr_setattr_ne by discriminate.
    unfold getattr. simpl. by rewrite lookup_empty, Hcls. }
  split; [exact Hget|].
  unfold get_converter. rewrite getattr_setattr_eq.
  destruct use_mro; [reflexivity|].
  cbn -[getattr setattr]. unfold self_converters. rewrite Hget. reflexivity.
Qed.

Lemma constructed_converter_finds_nothing_witness :
  assoc "converters" ModelTableConverter_class = None
  /\ getattr (fst (init ModelTableConverter_class (Some String_converters) false))
             "converters"
     = Raise (AttributeError "converters")
  /\ is_ok (get_converter module_globals
              (fst (init ModelTableConverter_class (Some String_converters) false))
              Item_name)
     = false.
Proof.
  split; [reflexivity|].
  apply (constructed_converter_finds_nothing ModelTableConverter_class
           (Some String_converters) false Item_name).
  reflexivity.
Defined.

(** X4. The key tried for a class of a module under [sqlalchemy.] is
    the module path without that prefix, then a dot and the class name;
    for a class of the top-level module [sqlalchemy] it is the bare
    class name; a name that does not start with [sqlalchemy.] is kept
    whole. *)
Theorem type_string_strips_prefix (module_ name : string) :
  type_string (PyClass ("sqlalchemy." +:+ module_) name)
  = module_ +:+ "." +:+ name
  /\ type_string (PyClass "sqlalchemy" name) = name
  /\ (startswith "sqlalchemy." (module_ +:+ "." +:+ name) = false ->
      type_string (PyClass module_ name) = module_ +:+ "." +:+ name).
Proof.
  split; [reflexivity|]. split; [reflexivity|].
  intros H. unfold type_string. cbn [cls_module cls_name]. by rewrite H.
Qed.

Lemma type_string_strips_prefix_witness :
  startswith "sqlalchemy." ("builtins" +:+ "." +:+ "object") = false
  /\ type_string (PyClass "builtins" "object") = "builtins" +:+ "." +:+ "object".
Proof.
  split; [reflexivity|].
  apply (proj2 (proj2 (type_string_strips_prefix "builtins" "object"))).
  reflexivity.
Defined.

(** X5. With [use_mro] off and a mapping present on the object, the
    lookup tries the exact type only: its qualified key, then its bare
    name; the type's ancestors play no part, and when both keys are
    unknown the call ends in the [TypeError] of the message format. *)
Theorem get_converter_exact_type self a d column :
  getattr self "use_mro" = Ok a -> truthy a = false ->
  getattr self "converters" = Ok (ADict d) ->
  get_converter module_globals self column
  = match d !! type_string (ty_class (col_type column)) with
    | Some h => Ok h
    | None =>
        match d !! cls_name (ty_class (col_type column)) with
        | Some h => Ok h
        | None =>
            Raise (TypeError
                     "unsupported format string passed to type.__format__")
        end
    end.
Proof.
  intros Hm Ha Hd. unfold get_converter, self_converters. rewrite Hm.
  cbn -[getattr type_string]. rewrite Ha.
  cbn -[getattr type_string]. unfold self_converters. rewrite Hd.
  cbn -[getattr type_string].
  destruct (d !! type_string _); [reflexivity|].
  cbn -[getattr type_string].
  destruct (d !! cls_name _); reflexivity.
Qed.

Lemma get_converter_exact_type_witness :
  get_converter module_globals
    (setattr (ModelTableConverter None false) "converters"
             (ADict String_converters))
    Item_name
  = Ok conv_String.
Proof.
  exact (get_converter_exact_type
           (setattr (ModelTableConverter None false) "converters"
                    (ADict String_converters))
           (ABool false) String_converters Item_name
           eq_refl eq_refl eq_refl).
Defined.

(** X6. With [use_mro] set (the default) the lookup raises [NameError]
    for [inspect] on every object and column, before any key is
    tried. *)
Theorem get_converter_with_mro_raises self a column :
  getattr self "use_mro" = Ok a -> truthy a = true ->
  get_converter module_globals self column = Raise (NameError "inspect").
Proof.
  intros Hm Ha. unfold get_converter. rewrite Hm. simpl. by rewrite Ha.
Qed.

Lemma get_converter_with_mro_raises_witness :
  get_converter module_globals
    (setattr (ModelTableConverter None true) "converters"
             (ADict String_converters))
    Item_name
  = Raise (NameError "inspect").
Proof.
  exact (get_converter_with_mro_raises
           (setattr (ModelTableConverter None true) "converters"
                    (ADict String_converters))
           (ABool true) Item_name eq_refl eq_refl).
Defined.

End Lookup.

(** ** The branches of [convert] *)

Section Convert.

Context {T : Type}.
Implicit Types (self : instance) (prop : Property) (sess : option T).

(** X7. A property without a direction is never handed to a handler:
    with one column the call fails on the converter that was never
    chosen, with any other number of columns on the multiple-column
    guard. *)
Theorem convert_column_property self model_ prop field_args sess columns :
  prop_direction prop = None ->
  prop_columns prop = Some columns ->
  convert self model_ prop field_args sess
  = ([], Raise (TypeError
                  (if (length columns =? 1)%nat
                   then "'NoneType' object is not callable"
                   else "Multiple-column properties not supported."))).
Proof.
  intros Hd Hc. unfold convert. rewrite Hd, Hc. simpl.
  destruct (length columns =? 1)%nat; reflexivity.
Qed.

(** X8. With a session, a relationship is handed to the handler stored
    under the name of its direction, once, with no column and the
    field arguments as given, and the handler's outcome is the
    outcome; a direction with no entry is a [KeyError]. *)
Theorem convert_relationship_dispatch
        self model_ prop field_args (session_ : T) d foreign_model convs :
  prop_direction prop = Some d ->
  prop_foreign prop = Some foreign_model ->
  getattr self "converters" = Ok (ADict convs) ->
  convert self model_ prop field_args (Some session_)
  = match convs !! direction_name d with
    | Some h =>
        ([(h_name h, convert_args model_ prop field_args)],
         h_body h (convert_args model_ prop field_args))
    | None => ([], Raise (KeyError (direction_name d)))
    end.
Proof.
  intros Hd Hf Hc. unfold convert. rewrite Hd, Hf. simpl.
  rewrite andb_false_r. unfold self_converters. rewrite Hc. simpl.
  destruct (convs !! direction_name d); reflexivity.
Qed.

(** X9. [key_from_property] and [convert] share their guards: where the
    first returns nothing the second returns nothing and calls no
    handler, and where the first raises a [TypeError] the second
    raises the same one. *)
Theorem key_from_property_guards_convert self model_ prop field_args sess :
  (key_from_property prop = Ok None ->
   convert self model_ prop field_args sess = ([], Ok (Scalar VNone)))
  /\ (forall msg,
        key_from_property prop = Raise (TypeError msg) ->
        convert self model_ prop field_args sess = ([], Raise (TypeError msg))).
Proof.
  unfold key_from_property, convert.
  destruct (negb (has (prop_columns prop)) && negb (has (prop_direction prop)));
    [split; [reflexivity|discriminate]|].
  destruct (negb (has (prop_direction prop))
            && negb (length (default [] (prop_columns prop)) =? 1)%nat).
  - split; [discriminate|]. by intros msg [= <-].
  - split; discriminate.
Qed.

End Convert.

(** X10. An object made by [ModelTableConverter] never invokes a
    handler from [convert], whatever the property, the arguments and
    the session; the call succeeds only on a property that has neither
    columns nor a direction. *)
Theorem constructed_converter_invokes_nothing
        (T : Type) extra use_mro model_ (prop : Property) field_args
        (sess : option T) :
  fst (convert (ModelTableConverter extra use_mro) model_ prop field_args sess)
  = []
  /\ is_ok (snd (convert (ModelTableConverter extra use_mro)
                         model_ prop field_args sess))
     = negb (has (prop_columns prop)) && negb (has (prop_direction prop)).
Proof.
  unfold convert.
  destruct (prop_columns prop) as [columns|], (prop_direction prop) as [d|];
    simpl.
  - destruct sess; [destruct (prop_foreign prop)|]; split; reflexivity.
  - destruct (length columns =? 1)%nat; split; reflexivity.
  - destruct sess; [destruct (prop_foreign prop)|]; split; reflexivity.
  - split; reflexivity.
Qed.

Lemma convert_column_property_witness :
  convert (S := database) (ModelTableConverter None true) "Item"
          (column_property Item_name) None (Some two_items)
  = ([], Raise (TypeError "'NoneType' object is not callable"))
  /\ convert (S := database) (ModelTableConverter None true) "Item"
             two_column_property None (Some two_items)
     = ([], Raise (TypeError "Multiple-column properties not supported.")).
Proof.
  split.
  - exact (convert_column_property (ModelTableConverter None true) "Item"
             (column_property Item_name) None (Some two_items) [Item_name]
             eq_refl eq_refl).
  - exact (convert_column_property (ModelTableConverter None true) "Item"
             two_column_property None (Some two_items)
             [MkColumn "id" sa_Integer ∅; MkColumn "item_id" sa_Integer ∅]
             eq_refl eq_refl).
Defined.

Lemma convert_relationship_dispatch_witness :
  convert (setattr (ModelTableConverter None true) "converters"
                   (ADict {[ "ONETOMANY" := conv_String ]}))
          "Account" Account_orders None (Some two_items)
  = ([("conv_String", convert_args "Account" Account_orders None)],
     Ok (Scalar VNone))
  /\ convert (setattr (ModelTableConverter None true) "converters"
                      (ADict String_converters))
             "Account" Account_orders None (Some two_items)
     = ([], Raise (KeyError "ONETOMANY")).
Proof.
  split.
  - exact (convert_relationship_dispatch
             (setattr (ModelTableConverter None true) "converters"
                      (ADict {[ "ONETOMANY" := conv_String ]}))
             "Account" Account_orders None two_items ONETOMANY "Order"
             {[ "ONETOMANY" := conv_String ]} eq_refl eq_refl eq_refl).
  - exact (convert_relationship_dispatch
             (setattr (ModelTableConverter None true) "converters"
                      (ADict String_converters))
             "Account" Account_orders None two_items ONETOMANY "Order"
             String_converters eq_refl eq_refl eq_refl).
Defined.

Lemma key_from_property_guards_convert_witness :
  key_from_property unmapped_property = Ok None
  /\ convert (S := database) (ModelTableConverter None true) "Account"
             unmapped_property None None
     = ([], Ok (Scalar VNone))
  /\ key_from_property two_column_property
     = Raise (TypeError "Multiple-column properties not supported.")
  /\ convert (S := database) (ModelTableConverter None true) "Account"
             two_column_property None None
     = ([], Raise (TypeError "Multiple-column properties not supported.")).
Proof.
  split; [reflexivity|]. split.
  - exact (proj1 (key_from_property_guards_convert
                    (T := database) (ModelTableConverter None true) "Account"
                    unmapped_property None None) eq_refl).
  - split; [reflexivity|].
    exact (proj2 (key_from_property_guards_convert
                    (T := database) (ModelTableConverter None true) "Account"
                    two_column_property None None)
                 "Multiple-column properties not supported." eq_refl).
Defined.

(** ** Escaping *)

Section Escaping.

Lemma occurs_app c a b : occurs c (a +:+ b) = occurs c a || occurs c b.
Proof.
  induction a as [|x a IH]; [reflexivity|].
  rewrite append_cons. simpl. rewrite IH. by rewrite orb_assoc.
Qed.

Lemma escape_char_plain x :
  is_special x = false -> escape_char x = String x EmptyString.
Proof.
  unfold is_special, escape_char. intros H.
  repeat (apply orb_false_elim in H as [H ?]).
  by repeat match goal with E : Ascii.eqb x _ = false |- _ => rewrite E; clear E end.
Qed.

Lemma occurs_escape_char c x :
  is_special c = true -> c <> "&"%char -> occurs c (escape_char x) = false.
Proof.
  intros Hc Hamp.
  assert (Hcases : c = "<"%char \/ c = ">"%char \/ c = "'"%char
                   \/ c = ascii_of_nat 34).
  { unfold is_special in Hc.
    repeat (apply orb_prop in Hc as [Hc|Hc]);
      apply Ascii.eqb_eq in Hc; auto. contradiction. }
  destruct (is_special x) eqn:Hx.
  - unfold is_special in Hx. unfold escape_char.
    repeat (match goal with
            | |- context [if Ascii.eqb x ?k then _ else _] =>
                destruct (Ascii.eqb x k) eqn:?
            end;
            [destruct Hcases as [->|[->|[->| ->]]]; reflexivity|]).
    repeat (apply orb_prop in Hx as [Hx|Hx]); congruence.
  - rewrite (escape_char_plain x Hx). simpl. rewrite orb_false_r.
    apply Ascii.eqb_neq. intros ->. congruence.
Qed.

(** Escaped text holds none of [<], [>], the single and the double
    quote, whatever text went in. *)
Lemma escape_str_leaves_no_markup (s : string) :
  occurs "<" (escape_str s) = false
  /\ occurs ">" (escape_str s) = false
  /\ occurs "'" (escape_str s) = false
  /\ occurs (ascii_of_nat 34) (escape_str s) = false.
Proof.
  assert (H : forall c, is_special c = true -> c <> "&"%char ->
                        occurs c (escape_str s) = false).
  { intros c Hc Hamp. induction s as [|x s IH]; [reflexivity|].
    simpl. rewrite occurs_app, IH, (occurs_escape_char c x Hc Hamp).
    reflexivity. }
  repeat split; apply H; (reflexivity || discriminate).
Qed.

Lemma length_append a b :
  String.length (a +:+ b) = (String.length a + String.length b)%nat.
Proof.
  induction a as [|x a IH]; [reflexivity|].
  rewrite append_cons. simpl. by rewrite IH.
Qed.

Lemma length_escape_char x :
  (1 <= String.length (escape_char x))%nat
  /\ (is_special x = true -> (1 < String.length (escape_char x))%nat).
Proof.
  destruct (is_special x) eqn:Hx.
  - unfold is_special in Hx. unfold escape_char.
    repeat (match goal with
            | |- context [if Ascii.eqb x ?k then _ else _] =>
                destruct (Ascii.eqb x k) eqn:?
            end; [simpl; lia|]).
    repeat (apply orb_prop in Hx as [Hx|Hx]); congruence.
  - rewrite (escape_char_plain x Hx). simpl. split; [lia|discriminate].
Qed.

Lemma length_escape_str s :
  (String.length s <= String.length (escape_str s))%nat
  /\ (plain s = false -> (String.length s < String.length (escape_str s))%nat).
Proof.
  induction s as [|x s [IH1 IH2]]; [split; [reflexivity|discriminate]|].
  simpl. rewrite length_append.
  destruct (length_escape_char x) as [Hx1 Hx2]. split; [lia|].
  destruct (is_special x); simpl; intros H.
  - specialize (Hx2 eq_refl). lia.
  - specialize (IH2 H). lia.
Qed.

(** Escaping leaves a text as it is exactly when the text holds none
    of the five characters it replaces. *)
Lemma escape_str_fixes_plain_text (s : string) :
  escape_str s = s <-> plain s = true.
Proof.
  split.
  - intros H. destruct (plain s) eqn:Hp; [reflexivity|].
    destruct (length_escape_str s) as [_ Hlt]. specialize (Hlt Hp).
    rewrite H in Hlt. lia.
  - induction s as [|x s IH]; [reflexivity|].
    simpl. intros H. apply andb_prop in H as [Hx Hs].
    apply negb_true_iff in Hx.
    rewrite (escape_char_plain x Hx), (IH Hs). reflexivity.
Qed.

(** Escaping a concatenation is concatenating the escaped parts. *)
Lemma escape_str_app (a b : string) :
  escape_str (a +:+ b) = escape_str a +:+ escape_str b.
Proof.
  induction a as [|x a IH]; [reflexivity|].
  rewrite append_cons. simpl. rewrite IH. by rewrite append_assoc.
Qed.

Lemma append_cancel_l c a b : c +:+ a = c +:+ b -> a = b.
Proof.
  induction c as [|x c IH]; [by intros H|].
  rewrite !append_cons. intros [= H]. by apply IH.
Qed.

Lemma append_cancel_r a b c : a +:+ c = b +:+ c -> a = b.
Proof.
  revert b. induction a as [|x a IH]; intros [|y b] H.
  - reflexivity.
  - apply (f_equal String.length) in H.
    rewrite !length_append in H. simpl in H. lia.
  - apply (f_equal String.length) in H.
    rewrite !length_append in H. simpl in H. lia.
  - rewrite !append_cons in H. injection H as -> H. f_equal. by apply IH.
Qed.

End Escaping.

(** ** Lists and cells *)

Section Cells.

(** X11. The cell of a plain value holds the value's text escaped:
    between the two tags there is no [<], no [>] and no quote, and the
    text stands unchanged exactly when it has none of the five
    characters that are replaced. *)
Theorem td_escapes_plain_value (v : scalar) :
  td (Scalar v) = "<td>" +:+ escape_str (str v) +:+ "</td>"
  /\ occurs "<" (escape_str (str v)) = false
  /\ occurs ">" (escape_str (str v)) = false
  /\ occurs "'" (escape_str (str v)) = false
  /\ occurs (ascii_of_nat 34) (escape_str (str v)) = false
  /\ (td (Scalar v) = "<td>" +:+ str v +:+ "</td>" <-> plain (str v) = true).
Proof.
  split; [reflexivity|].
  destruct (escape_str_leaves_no_markup (str v)) as (H1 & H2 & H3 & H4).
  repeat (split; [assumption|]).
  rewrite <- escape_str_fixes_plain_text. unfold td, td_text. cbn [escape].
  split; [|by intros ->].
  intros H. apply append_cancel_l in H. by apply append_cancel_r in H.
Qed.

(** [ul] holds none of a tag that is none of its own four. *)
Lemma count_sub_ul_foreign needle items :
  tag_like needle = true ->
  count_sub needle "<ul>" = 0%nat -> count_sub needle "</ul>" = 0%nat ->
  count_sub needle "<li>" = 0%nat -> count_sub needle "</li>" = 0%nat ->
  count_sub needle (ul items) = 0%nat.
Proof.
  intros Htag H1 H2 H3 H4. unfold ul.
  rewrite count_sub_enclosed by (assumption || reflexivity).
  rewrite (count_sub_join needle 0); [lia|exact Htag|].
  rewrite !Forall_map. apply Forall_forall. intros item _.
  unfold compose. split; [by apply ends_gt_enclosed|].
  rewrite count_sub_enclosed by (assumption || reflexivity).
  rewrite (count_sub_no_lt needle Htag (escape (Plain item))
             (no_lt_escape_str _)). lia.
Qed.

(** X12. [ul] renders one [<li>] per item, inside a single [<ul>];
    for no items at all that is the empty list element. *)
Theorem ul_one_li_per_item (items_ : list scalar) :
  count_sub "<li>" (ul items_) = length items_
  /\ count_sub "<ul>" (ul items_) = 1%nat
  /\ ul [] = "<ul></ul>".
Proof.
  split; [|split; [|reflexivity]]; unfold ul.
  - rewrite count_sub_enclosed by reflexivity.
    rewrite (count_sub_join "<li>" 1).
    + rewrite !length_map. simpl. lia.
    + reflexivity.
    + rewrite !Forall_map. apply Forall_forall. intros item _.
      unfold compose. split; [by apply ends_gt_enclosed|].
      rewrite count_sub_enclosed by reflexivity.
      by rewrite (count_sub_no_lt "<li>" eq_refl (escape (Plain item))
                    (no_lt_escape_str _)).
  - rewrite count_sub_enclosed by reflexivity.
    rewrite (count_sub_join "<ul>" 0); [reflexivity|reflexivity|].
    rewrite !Forall_map. apply Forall_forall. intros item _.
    unfold compose. split; [by apply ends_gt_enclosed|].
    rewrite count_sub_enclosed by reflexivity.
    by rewrite (count_sub_no_lt "<ul>" eq_refl (escape (Plain item))
                  (no_lt_escape_str _)).
Qed.

(** Whatever the value, [td] is one cell. *)
Lemma count_sub_td_cell obj : count_sub "<td>" (td obj) = 1%nat.
Proof.
  destruct obj as [v|items_]; unfold td, td_text;
    rewrite count_sub_enclosed by reflexivity; cbn [escape].
  - by rewrite (count_sub_no_lt "<td>" eq_refl _ (no_lt_escape_str _)).
  - by rewrite (count_sub_ul_foreign "<td>" items_).
Qed.

(** X13. A cell is one [<td>] element from its first character to its
    last; a collection adds one [<li>] per member and a plain value
    adds none. *)
Theorem td_is_one_cell (obj : pyval) :
  startswith "<td>" (td obj) = true
  /\ ends_gt (td obj) = true
  /\ count_sub "<td>" (td obj) = 1%nat
  /\ count_sub "<li>" (td obj)
     = match obj with
       | Scalar _ => 0%nat
       | Seq items_ => length items_
       end.
Proof.
  split; [by destruct obj|]. split; [apply ends_gt_td|].
  split; [apply count_sub_td_cell|].
  destruct obj as [v|items_]; unfold td, td_text;
    rewrite count_sub_enclosed by reflexivity; cbn [escape].
  - by rewrite (count_sub_no_lt "<li>" eq_refl _ (no_lt_escape_str _)).
  - destruct (ul_one_li_per_item items_) as [-> _]. simpl. lia.
Qed.

End Cells.

(** ** [html_table] in general *)

Section HtmlTable.

Context {T : Type}.

Lemma for_each_getattr_ok (inst : gmap string pyval) keys :
  Forall (fun k => is_Some (inst !! k)) keys ->
  exists values, for_each (inst_getattr inst) keys = Ok values.
Proof.
  induction 1 as [|k keys [v Hk] _ [values IH]]; [by eexists|].
  assert (Hget : inst_getattr inst k = Ok v)
    by (unfold inst_getattr; by rewrite Hk).
  cbn [for_each]. rewrite Hget, IH. by eexists.
Qed.


Lemma for_each_all_ok {A B} (f : A -> result B) (P : B -> Prop) l :
  Forall (fun x => exists y, f x = Ok y /\ P y) l ->
  exists ys, for_each f l = Ok ys /\ Forall P ys.
Proof.
  induction 1 as [|x l (y & Hy & HP) _ (ys & IH & HPs)];
    [exists []; by split|].
  exists (y :: ys). simpl. rewrite Hy. simpl. rewrite IH. simpl.
  split; [reflexivity|by constructor].
Qed.

Lemma for_each_not_ok {A B} (f : A -> result B) l x :
  In x l -> is_ok (f x) = false -> is_ok (for_each f l) = false.
Proof.
  induction l as [|x0 l IH]; intros Hin Hx; [destruct Hin|].
  simpl. destruct (f x0) as [y|e] eqn:E; [|reflexivity]. simpl.
  destruct Hin as [->|Hin]; [by rewrite E in Hx|].
  specialize (IH Hin Hx). by destruct (for_each f l).
Qed.

Lemma body_row_unfold (sess : T) keys (inst : gmap string pyval) :
  body_row (Some sess) keys inst
  = values ← for_each (inst_getattr inst) keys;
    Ok ("<tr>" +:+ join (map td values) +:+ "</tr>").
Proof. reflexivity. Qed.

(** A row of an instance that has every key: as many cells as keys. *)
Lemma body_row_cells (sess : T) keys (inst : gmap string pyval) :
  Forall (fun k => is_Some (inst !! k)) keys ->
  exists row,
    body_row (Some sess) keys inst = Ok row
    /\ ends_gt row = true
    /\ count_sub "<td>" row = length keys.
Proof.
  intros Hkeys. destruct (for_each_getattr_ok inst keys Hkeys) as [values Hv].
  pose proof (for_each_length _ _ _ Hv) as Hlen.
  eexists. rewrite body_row_unfold, Hv.
  split; [reflexivity|]. split; [by apply ends_gt_enclosed|].
  rewrite count_sub_enclosed by reflexivity.
  rewrite (count_sub_join "<td>" 1).
  - rewrite length_map, Hlen. simpl. lia.
  - reflexivity.
  - rewrite Forall_map. apply Forall_forall. intros v _. unfold compose.
    split; [apply ends_gt_td|apply count_sub_td_cell].
Qed.

Lemma count_sub_td_header texts :
  Forall (fun t => no_lt t = true) texts ->
  count_sub "<td>" (header_row texts) = 0%nat.
Proof.
  intros H. unfold header_row.
  rewrite count_sub_enclosed by reflexivity.
  rewrite (count_sub_join "<td>" 0); [reflexivity|reflexivity|].
  rewrite Forall_map. eapply Forall_impl; [exact H|].
  intros t Ht. unfold compose. split; [by apply ends_gt_enclosed|].
  rewrite count_sub_enclosed by reflexivity.
  by rewrite (count_sub_no_lt "<td>" eq_refl _ Ht).
Qed.

Lemma count_sub_td_table_markup header rows :
  count_sub "<td>" (table_markup header rows)
  = (count_sub "<td>" header + count_sub "<td>" (join rows))%nat.
Proof.
  unfold table_markup.
  rewrite (count_sub_app_r "<td>" eq_refl) by (by right).
  rewrite (count_sub_app_l "<td>" eq_refl "<table><thead>") by (by right).
  rewrite (count_sub_app_r "<td>" eq_refl header) by (by right).
  rewrite count_sub_enclosed by reflexivity.
  simpl. lia.
Qed.

(** X14. For any mapped class whose header texts bring no tag of their
    own, and any instances that have every mapped attribute,
    [html_table] with a session returns a table with one [<th>] per
    property, one [<tr>] per instance besides the header row, and one
    [<td>] per property and instance. *)
Theorem html_table_cell_counts (sess : T) (m : model)
        (instances : list (gmap string pyval)) (texts : list string) :
  for_each th_from_property (m_attrs m) = Ok texts ->
  Forall (fun t => no_lt t = true) texts ->
  Forall (fun inst : gmap string pyval =>
            Forall (fun k => is_Some (inst !! k)) (map prop_key (m_attrs m)))
         instances ->
  exists html,
    html_table m instances (Some sess) = Ok html
    /\ count_sub "<th>" html = length (m_attrs m)
    /\ count_sub "<tr>" html = S (length instances)
    /\ count_sub "<td>" html = (length (m_attrs m) * length instances)%nat.
Proof.
  intros Ht Hfree Hinst.
  pose proof (for_each_length _ _ _ Ht) as Hlen.
  destruct (for_each_all_ok
              (body_row (Some sess) (map prop_key (m_attrs m)))
              (fun row => ends_gt row = true
                          /\ count_sub "<td>" row = length (m_attrs m))
              instances) as (rows & Hr & Hrows).
  { eapply Forall_impl; [exact Hinst|]. intros inst Hkeys.
    destruct (body_row_cells sess _ inst Hkeys) as (row & H1 & H2 & H3).
    exists row. rewrite length_map in H3. by repeat split. }
  pose proof (for_each_length _ _ _ Hr) as Hrlen.
  destruct (table_markup_counts sess _ _ texts rows Hfree Hr)
    as (Hth & Htr & _).
  exists (table_markup (header_row texts) rows).
  split; [by apply html_table_markup|].
  split; [by rewrite Hth|]. split; [exact Htr|].
  rewrite count_sub_td_table_markup, (count_sub_td_header texts Hfree).
  rewrite (count_sub_join "<td>" (length (m_attrs m)) rows eq_refl Hrows).
  rewrite Hrlen. lia.
Qed.

(** X15. Called without a session, as its default allows,
    [html_table] renders the header alone when there are no
    instances and fails on the first instance otherwise. *)
Theorem html_table_without_session
        (m : model) (inst : gmap string pyval)
        (rest : list (gmap string pyval)) (texts : list string) :
  for_each th_from_property (m_attrs m) = Ok texts ->
  html_table (S := T) m [] None = Ok (table_markup (header_row texts) [])
  /\ html_table (S := T) m (inst :: rest) None
     = Raise (AttributeError "merge").
Proof.
  intros Ht. unfold html_table. rewrite Ht. split; reflexivity.
Qed.


(** X17. A property with neither columns nor a direction is passed over
    by [key_from_property], yet a class that has one cannot be
    rendered: [html_table] fails whatever the instances and the
    session. *)
Theorem html_table_unrenderable_property
        (m : model) (prop : Property)
        (instances : list (gmap string pyval)) (sess : option T) :
  In prop (m_attrs m) ->
  prop_columns prop = None -> prop_direction prop = None ->
  key_from_property prop = Ok None
  /\ is_ok (html_table m instances sess) = false.
Proof.
  intros Hin Hc Hd. split.
  - unfold key_from_property. by rewrite Hc, Hd.
  - unfold html_table.
    assert (H : is_ok (for_each th_from_property (m_attrs m)) = false).
    { apply (for_each_not_ok _ _ prop Hin).
      unfold th_from_property. by rewrite Hd, Hc. }
    by destruct (for_each th_from_property (m_attrs m)).
Qed.

End HtmlTable.

Lemma html_table_cell_counts_witness :
  exists html,
    html_table Item (scalars two_items Item) (Some two_items) = Ok html
    /\ count_sub "<th>" html = 3%nat
    /\ count_sub "<tr>" html = 3%nat
    /\ count_sub "<td>" html = 6%nat.
Proof.
  apply (html_table_cell_counts two_items Item (scalars two_items Item)
           ["id"; "Name"; "Price"]).
  - reflexivity.
  - repeat constructor.
  - repeat constructor; by eexists.
Defined.

Lemma html_table_without_session_witness :
  html_table (S := database) Item [] None
  = Ok (table_markup (header_row ["id"; "Name"; "Price"]) [])
  /\ html_table (S := database) Item (scalars two_items Item) None
     = Raise (AttributeError "merge").
Proof.
  apply (html_table_without_session (T := database) Item
           (load_item (ItemRow 1 "Pencil" (Some 10)))
           [load_item (ItemRow 2 "Notebook" (Some 50))]
           ["id"; "Name"; "Price"]).
  reflexivity.
Defined.


Lemma html_table_unrenderable_property_witness :
  key_from_property unmapped_property = Ok None
  /\ is_ok (html_table Person [] (Some two_items)) = false.
Proof.
  apply (html_table_unrenderable_property Person unmapped_property []
           (Some two_items)).
  - right; left; reflexivity.
  - reflexivity.
  - reflexivity.
Defined.

(** ** Finding the class of a table *)

Section MappedClass.

Implicit Types (base : list model) (tablename : string).

Lemma mapped_class_Some base tablename m :
  mapped_class_from_tablename base tablename = Some m ->
  In m base /\ m_tablename m = tablename.
Proof.
  induction base as [|m0 base IH]; simpl; [discriminate|].
  destruct (String.eqb (m_tablename m0) tablename) eqn:E.
  - intros [= <-]. split; [by left|]. by apply String.eqb_eq.
  - intros H. destruct (IH H). split; [by right|assumption].
Qed.

Lemma mapped_class_None base tablename :
  mapped_class_from_tablename base tablename = None <->
  (forall m, In m base -> m_tablename m <> tablename).
Proof.
  induction base as [|m0 base IH]; simpl.
  - split; [intros _ m []|reflexivity].
  - destruct (String.eqb (m_tablename m0) tablename) eqn:E.
    + apply String.eqb_eq in E. split; [discriminate|].
      intros H. destruct (H m0); [by left|exact E].
    + apply String.eqb_neq in E. rewrite IH. split.
      * intros H m [<-|Hin]; [exact E|by apply H].
      * intros H m Hin. apply H. by right.
Qed.

(** X18. [mapped_class_from_tablename] returns a class of the base that
    is stored in the table asked for, and returns nothing exactly when
    the base has no class for that table. *)
Theorem mapped_class_from_tablename_correct base tablename :
  (forall m, mapped_class_from_tablename base tablename = Some m ->
             In m base /\ m_tablename m = tablename)
  /\ (mapped_class_from_tablename base tablename = None <->
      (forall m, In m base -> m_tablename m <> tablename)).
Proof.
  split; [apply mapped_class_Some|apply mapped_class_None].
Qed.

Lemma NoDup_map_inj {A B} (f : A -> B) (l : list A) a b :
  List.NoDup (map f l) -> In a l -> In b l -> f a = f b -> a = b.
Proof.
  induction l as [|x l IH]; intros Hnd Ha Hb Hf; [destruct Ha|].
  simpl in Hnd. apply List.NoDup_cons_iff in Hnd as [Hx Hnd].
  destruct Ha as [->|Ha], Hb as [->|Hb].
  - reflexivity.
  - destruct Hx. rewrite Hf. by apply in_map.
  - destruct Hx. rewrite <- Hf. by apply in_map.
  - by apply IH.
Qed.

(** X19. Where no two classes share a table, the class found does not
    depend on the order in which the mappers are visited. *)
Theorem mapped_class_from_tablename_any_order base base' tablename :
  Permutation base base' ->
  List.NoDup (map m_tablename base) ->
  mapped_class_from_tablename base tablename
  = mapped_class_from_tablename base' tablename.
Proof.
  intros Hperm Hnd.
  destruct (mapped_class_from_tablename base tablename) as [m|] eqn:E.
  - destruct (mapped_class_Some _ _ _ E) as [Hin Hname].
    destruct (mapped_class_from_tablename base' tablename) as [m'|] eqn:E'.
    + destruct (mapped_class_Some _ _ _ E') as [Hin' Hname'].
      f_equal. apply (NoDup_map_inj m_tablename base); try assumption.
      * eapply Permutation_in; [symmetry; exact Hperm|exact Hin'].
      * congruence.
    + destruct (proj1 (mapped_class_None _ _) E' m); [|exact Hname].
      eapply Permutation_in; [exact Hperm|exact Hin].
  - symmetry. apply mapped_class_None. intros m Hin.
    apply (proj1 (mapped_class_None _ _) E).
    eapply Permutation_in; [symmetry; exact Hperm|exact Hin].
Qed.

End MappedClass.

Lemma mapped_class_from_tablename_correct_witness :
  mapped_class_from_tablename mappers "orders" = Some Order
  /\ In Order mappers /\ m_tablename Order = "orders".
Proof.
  split; [reflexivity|].
  apply (proj1 (mapped_class_from_tablename_correct mappers "orders") Order).
  reflexivity.
Defined.

Lemma mapped_class_from_tablename_any_order_witness :
  mapped_class_from_tablename mappers "orders"
  = mapped_class_from_tablename [OrderItem; Order; Account; Item] "orders".
Proof.
  apply (mapped_class_from_tablename_any_order
           mappers [OrderItem; Order; Account; Item] "orders").
  - apply Permutation_rev.
  - repeat (apply List.NoDup_cons;
            [simpl; intros H;
             repeat (destruct H as [H|H]; [discriminate H|]); exact H|]).
    apply List.NoDup_nil.
Defined.

(** ** A view over another base *)

Section Views.






End Views.



(** ** The seed command on any database *)

Section Seed.

Lemma init_data_commit db : init_data db = commit seed_session db.
Proof. reflexivity. Qed.

Lemma insert_account h db keys oid name :
  h !! oid = Some (NewAccount name) ->
  insert_parent h (db, keys) oid
  = if bool_decide (name ∈ map account_name (accounts db))
    then Raise (IntegrityError "accounts.name")
    else Ok (Database (items db)
                      (accounts db
                         ++ [AccountRow (next_id (map account_id (accounts db)))
                                        name])
                      (orders db) (orders_items db),
             (oid, next_id (map account_id (accounts db))) :: keys).
Proof. intros H. unfold insert_parent. by rewrite H. Qed.

Lemma insert_item h db keys oid name price :
  h !! oid = Some (NewItem name price) ->
  insert_parent h (db, keys) oid
  = if bool_decide (name ∈ map item_name (items db))
    then Raise (IntegrityError "items.name")
    else Ok (Database (items db
                         ++ [ItemRow (next_id (map item_id (items db)))
                                     name price])
                      (accounts db) (orders db) (orders_items db),
             (oid, next_id (map item_id (items db))) :: keys).
Proof. intros H. unfold insert_parent. by rewrite H. Qed.

Lemma fold_result_cons {A B} (f : A -> B -> result A) x l a :
  fold_result f (x :: l) a = a' ← f a x; fold_result f l a'.
Proof. reflexivity. Qed.

(** The first pass only ever appends accounts. *)
Lemma insert_parent_accounts h st oid st' :
  insert_parent h st oid = Ok st' ->
  exists extra, accounts (fst st') = accounts (fst st) ++ extra.
Proof.
  destruct st as [db keys]. unfold insert_parent.
  destruct (h !! oid) as [[name|name price|a its]|].
  - case_bool_decide; [discriminate|]. intros [= <-]. by eexists.
  - case_bool_decide; [discriminate|]. intros [= <-].
    exists []. simpl. by rewrite app_nil_r.
  - intros [= <-]. exists []. simpl. by rewrite app_nil_r.
  - intros [= <-]. exists []. simpl. by rewrite app_nil_r.
Qed.

Lemma fold_insert_parent_accounts h l st st' :
  fold_result (insert_parent h) l st = Ok st' ->
  exists extra, accounts (fst st') = accounts (fst st) ++ extra.
Proof.
  revert st. induction l as [|oid l IH]; intros st; cbn [fold_result].
  - intros [= <-]. exists []. by rewrite app_nil_r.
  - destruct (insert_parent h st oid) as [st1|e] eqn:E; [|discriminate].
    intros H. destruct (insert_parent_accounts _ _ _ _ E) as [x1 H1].
    destruct (IH st1 H) as [x2 H2].
    exists (x1 ++ x2). rewrite H2, H1. by rewrite app_assoc.
Qed.

Lemma fold_insert_order_accounts h keys l db :
  accounts (fold_left (insert_order h keys) l db) = accounts db.
Proof.
  revert db. induction l as [|oid l IH]; intros db; [reflexivity|].
  simpl. rewrite IH. unfold insert_order.
  by destruct (h !! oid) as [[]|].
Qed.

(** X22. Once the seed command has succeeded on a database, running it
    again on the result is refused: the first account name is taken. *)
Theorem init_data_not_repeatable (db db' : database) :
  init_data db = Ok db' ->
  init_data db' = Raise (IntegrityError "accounts.name").
Proof.
  intros H.
  assert (Hsplit : forall d,
             commit seed_session d
             = '(db1, keys) ← (st ← insert_parent (heap seed_session) (d, []) 0%nat;
                               fold_result (insert_parent (heap seed_session))
                                           (tl (pending seed_session)) st);
               Ok (fold_left (insert_order (heap seed_session) keys)
                             (pending seed_session) db1))
    by reflexivity.
  rewrite init_data_commit, Hsplit in H.
  rewrite init_data_commit, Hsplit.
  rewrite (insert_account (heap seed_session) _ [] 0%nat "account1" eq_refl)
    in H.
  rewrite (insert_account (heap seed_session) _ [] 0%nat "account1" eq_refl).
  generalize dependent (tl (pending seed_session)). intros rest H.
  generalize dependent (pending seed_session). intros all H.
  assert (Hin : "account1" ∈ map account_name (accounts db')).
  { destruct (bool_decide ("account1" ∈ map account_name (accounts db)));
      [discriminate H|].
    cbn [mbind result_bind bind] in H.
    match type of H with
    | context [fold_result ?f rest ?st] =>
        destruct (fold_result f rest st) as [[db1 keys]|e] eqn:E;
        [|discriminate H]
    end.
    injection H as <-.
    destruct (fold_insert_parent_accounts _ _ _ _ E) as [extra Hacc].
    rewrite fold_insert_order_accounts.
    cbn [fst accounts] in Hacc. rewrite Hacc.
    rewrite !map_app, !elem_of_app.
    left. right. apply list_elem_of_here. }
  rewrite bool_decide_eq_true_2 by exact Hin. reflexivity.
Qed.

Lemma fold_result_app {A B} (f : A -> B -> result A) l1 l2 a :
  fold_result f (l1 ++ l2) a
  = a' ← fold_result f l1 a; fold_result f l2 a'.
Proof.
  revert a. induction l1 as [|x l1 IH]; intros a; [reflexivity|].
  simpl. destruct (f a x) as [a1|e]; [apply IH|reflexivity].
Qed.

(** Accounts with new, distinct names all go in, and nothing else
    changes. *)
Lemma fold_insert_accounts h oids names db keys :
  Forall2 (fun oid name => h !! oid = Some (NewAccount name)) oids names ->
  List.NoDup names ->
  Forall (fun name => name ∉ map account_name (accounts db)) names ->
  exists db1 keys1,
    fold_result (insert_parent h) oids (db, keys) = Ok (db1, keys1)
    /\ map account_name (accounts db1) = map account_name (accounts db) ++ names
    /\ items db1 = items db /\ orders db1 = orders db
    /\ orders_items db1 = orders_items db.
Proof.
  intros Hoids. revert db keys.
  induction Hoids as [|oid name oids names Hoid _ IH]; intros db keys Hnd Hnew.
  - exists db, keys. rewrite app_nil_r. by repeat split.
  - apply List.NoDup_cons_iff in Hnd as [Hname Hnd].
    apply Forall_cons in Hnew as [Hfresh Hnew].
    rewrite fold_result_cons, (insert_account h db keys oid name Hoid).
    rewrite bool_decide_eq_false_2 by exact Hfresh.
    cbn [mbind result_bind bind].
    edestruct IH as (db1 & keys1 & Hfold & Hnames & Hi & Ho & Hoi);
      [exact Hnd| |].
    2:{ exists db1, keys1. split; [exact Hfold|].
        cbn [accounts items orders orders_items] in *.
        rewrite Hnames, map_app. cbn [map account_name].
        rewrite <- app_assoc. by repeat split. }
    cbn [accounts]. rewrite Forall_forall in Hnew. apply Forall_forall.
    intros n Hn. rewrite map_app, not_elem_of_app. split; [by apply Hnew|].
    cbn [map account_name]. rewrite list_elem_of_singleton.
    intros ->. apply Hname. by apply list_elem_of_In.
Qed.

Lemma fold_insert_items h oids entries db keys :
  Forall2 (fun oid e => h !! oid = Some (NewItem (fst e) (snd e))) oids entries ->
  List.NoDup (map fst entries) ->
  Forall (fun name => name ∉ map item_name (items db)) (map fst entries) ->
  exists db1 keys1,
    fold_result (insert_parent h) oids (db, keys) = Ok (db1, keys1)
    /\ map item_name (items db1) = map item_name (items db) ++ map fst entries
    /\ accounts db1 = accounts db /\ orders db1 = orders db
    /\ orders_items db1 = orders_items db.
Proof.
  intros Hoids. revert db keys.
  induction Hoids as [|oid [name price] oids entries Hoid _ IH];
    intros db keys Hnd Hnew.
  - exists db, keys. rewrite app_nil_r. by repeat split.
  - cbn [map fst] in Hnd, Hnew.
    apply List.NoDup_cons_iff in Hnd as [Hname Hnd].
    apply Forall_cons in Hnew as [Hfresh Hnew].
    rewrite fold_result_cons, (insert_item h db keys oid name price Hoid).
    rewrite bool_decide_eq_false_2 by exact Hfresh.
    cbn [mbind result_bind bind].
    edestruct IH as (db1 & keys1 & Hfold & Hnames & Ha & Ho & Hoi);
      [exact Hnd| |].
    2:{ exists db1, keys1. split; [exact Hfold|].
        cbn [accounts items orders orders_items] in *.
        rewrite Hnames, map_app. cbn [map item_name fst].
        rewrite <- app_assoc. by repeat split. }
    cbn [items]. rewrite Forall_forall in Hnew. apply Forall_forall.
    intros n Hn. rewrite map_app, not_elem_of_app. split; [by apply Hnew|].
    cbn [map item_name]. rewrite list_elem_of_singleton.
    intros ->. apply Hname. by apply list_elem_of_In.
Qed.

(** X23. On any database that holds none of the seed's account names
    and none of its item names, the seed command succeeds and adds
    exactly 4 accounts, 7 items, 1 order and 2 rows of
    [orders_items], after the rows already there. *)
Theorem init_data_adds_seed_rows (db : database) :
  Forall (fun name => name ∉ map account_name (accounts db))
         seed_account_names ->
  Forall (fun name => name ∉ map item_name (items db)) seed_item_names ->
  exists db',
    init_data db = Ok db'
    /\ map account_name (accounts db')
       = map account_name (accounts db) ++ seed_account_names
    /\ map item_name (items db') = map item_name (items db) ++ seed_item_names
    /\ length (accounts db') = (length (accounts db) + 4)%nat
    /\ length (items db') = (length (items db) + 7)%nat
    /\ length (orders db') = (length (orders db) + 1)%nat
    /\ length (orders_items db') = (length (orders_items db) + 2)%nat.
Proof.
  intros Haccounts Hitems.
  destruct (fold_insert_accounts (heap seed_session) [0; 1; 2; 3]%nat
              seed_account_names db [])
    as (db1 & keys1 & Hfold1 & Hnames1 & Hi1 & Ho1 & Hoi1).
  { repeat constructor. }
  { repeat (apply List.NoDup_cons;
            [simpl; intros H;
             repeat (destruct H as [H|H]; [discriminate H|]); exact H|]).
    apply List.NoDup_nil. }
  { exact Haccounts. }
  destruct (fold_insert_items (heap seed_session) [4; 5; 6; 7; 8; 9; 10]%nat
              [("Pencil", Some 10); ("Notebook", Some 50); ("Eraser", Some 15);
               ("Straight Edge", Some 50); ("Protractor", Some 50);
               ("Desk", Some 10000); ("Chair", Some 5000)] db1 keys1)
    as (db2 & keys2 & Hfold2 & Hnames2 & Ha2 & Ho2 & Hoi2).
  { repeat constructor. }
  { repeat (apply List.NoDup_cons;
            [simpl; intros H;
             repeat (destruct H as [H|H]; [discriminate H|]); exact H|]).
    apply List.NoDup_nil. }
  { rewrite Hi1. exact Hitems. }
  assert (Hfirst : fold_result (insert_parent (heap seed_session))
                               (pending seed_session) (db, [])
                   = Ok (db2, keys2)).
  { change (pending seed_session)
      with ([0; 1; 2; 3]%nat ++ [4; 5; 6; 7; 8; 9; 10]%nat ++ [11]%nat).
    rewrite fold_result_app, Hfold1. cbn [mbind result_bind bind].
    rewrite fold_result_app, Hfold2. reflexivity. }
  eexists. rewrite init_data_commit. unfold commit. rewrite Hfirst.
  split; [reflexivity|].
  cbn [fold_left pending seed_session insert_order heap lookup list_lookup
       accounts items orders orders_items link_item].
  rewrite Ha2, Hnames1, Hnames2, Hi1.
  split; [reflexivity|]. split; [reflexivity|].
  assert (Hla : length (accounts db1) = (length (accounts db) + 4)%nat).
  { apply (f_equal (@length _)) in Hnames1.
    by rewrite length_app, !length_map in Hnames1. }
  assert (Hli : length (items db2) = (length (items db) + 7)%nat).
  { apply (f_equal (@length _)) in Hnames2.
    by rewrite length_app, !length_map, Hi1 in Hnames2. }
  unfold link_item. rewrite !length_app, Ho2, Ho1, Hoi2, Hoi1.
  cbn [length]. repeat split; lia.
Qed.

End Seed.

Lemma init_data_not_repeatable_witness :
  exists db',
    init_data fresh_database = Ok db'
    /\ init_data db' = Raise (IntegrityError "accounts.name").
Proof.
  destruct (init_data fresh_database) as [db'|e] eqn:E;
    [|exfalso; vm_compute in E; discriminate E].
  exists db'. split; [reflexivity|].
  exact (init_data_not_repeatable fresh_database db' E).
Defined.

Lemma init_data_adds_seed_rows_witness :
  exists db',
    init_data one_account = Ok db'
    /\ map account_name (accounts db') = ["alice"] ++ seed_account_names
    /\ map item_name (items db') = [] ++ seed_item_names
    /\ length (accounts db') = 5%nat
    /\ length (items db') = 7%nat
    /\ length (orders db') = 1%nat
    /\ length (orders_items db') = 2%nat.
Proof.
  apply (init_data_adds_seed_rows one_account).
  - repeat constructor;
      (apply (bool_decide_unpack _); vm_compute; exact I).
  - repeat constructor; apply not_elem_of_nil.
Defined.

Lemma td_escapes_plain_value_witness :
  plain (str (VStr "Straight Edge")) = true
  /\ td (Scalar (VStr "Straight Edge"))
     = "<td>" +:+ str (VStr "Straight Edge") +:+ "</td>".
Proof.
  split; [reflexivity|].
  apply (proj2 (proj2 (proj2 (proj2 (proj2
           (td_escapes_plain_value (VStr "Straight Edge"))))))).
  reflexivity.
Defined.
